(** * Decaimiento radiactivo: the computation of [app.py]

    [app.py] is a Streamlit script.  Its widgets deliver an isotope name,
    an initial population [N0], a time unit and a number of half-lives
    [k_semividas]; lines 122-138 turn them into the decay constant, the time
    grid and the sampled curves [N_t] and [A_t]; lines 194-195 print two
    summary activities.

    The script is cut into [constantes] (lines 122-124), [malla] (lines
    126-135) and [curvas] (lines 137-138 and 194-195); [calculos] chains
    them on four numbers and [app] runs the script from the widget values.

    The script computes on Python floats and NumPy float64 arrays.  The
    embedding below is written once, over an interface [Arith] of the
    arithmetic the script uses, and read in two ways:

    - [R_arith]: exact real arithmetic, with [math.log(2)] read as [ln 2]
      and [np.exp] as the real exponential;
    - [float_arith]: IEEE-754 binary64, the arithmetic the script runs on,
      for lines 122-135 (division, multiplication, [np.linspace]).  The float
      library has no exponential, so [np.exp] is read in the exact instance
      only.

    Three kinds of statement follow.  A statement over every [Arith] holds
    in both readings, rounding included.  A statement on [float_arith] is
    evaluated on the doubles of the script, for the eight isotopes, the five
    units and the twenty positions of the slider.  A statement on [R_arith]
    is about exact arithmetic; where rounding makes the script differ from
    it, the difference is stated beside it.  [float_R] reads a double as the
    real number it stands for, so that the exact exponential can be taken at
    an argument the script has computed. *)

From Stdlib Require Import Ascii String Reals Lra Lia ZArith QArith Qreals Bool List.
From Stdlib Require Import Floats Uint63.
Import ListNotations.

Set Warnings "-inexact-float".

(** ** Exceptions *)

(** The exceptions of lines 96-138: a missing dictionary key and a Python
    float division by zero; and [ValueError], which [np.linspace] raises for a
    negative number of points (the script itself always asks for 600). *)
Inductive excepcion : Type :=
| KeyError (clave : string)
| ZeroDivisionError
| ValueError.

Inductive resultado (A : Type) : Type :=
| Ok (a : A)
| Raise (e : excepcion).

Arguments Ok {A} a.
Arguments Raise {A} e.

Definition bind {A B : Type} (m : resultado A) (f : A -> resultado B)
  : resultado B :=
  match m with
  | Ok a => f a
  | Raise e => Raise e
  end.

Notation "x <- m ;; k" := (bind m (fun x => k))
  (at level 61, m at next level, right associativity).

(** ** The arithmetic interface *)

Declare Scope arith_scope.
Delimit Scope arith_scope with A.

Class Arith (T : Type) : Type := {
  of_Q : Q -> T;            (* a decimal literal of the script *)
  of_nat : nat -> T;        (* an integer index, as [np.arange] yields it *)
  add : T -> T -> T;
  sub : T -> T -> T;
  mul : T -> T -> T;
  div : T -> T -> T;
  opp : T -> T;
  eq0 : T -> bool;          (* [x == 0] *)
  leb : T -> T -> bool;     (* [x <= y] *)
  log_2 : T                 (* [math.log(2)] *)
}.

Infix "+" := add : arith_scope.
Infix "-" := sub : arith_scope.
Infix "*" := mul : arith_scope.
Infix "/" := div : arith_scope.
Notation "- x" := (opp x) : arith_scope.

(** [np.exp], and with it lines 137-138 and 194-195. *)
Class Exponential (T : Type) : Type := {
  np_exp : T -> T
}.

(** *** Exact reals *)

#[export] Instance R_arith : Arith R := {|
  of_Q := Q2R;
  of_nat := INR;
  add := Rplus;
  sub := Rminus;
  mul := Rmult;
  div := Rdiv;
  opp := Ropp;
  eq0 := fun x => if Req_dec_T x 0 then true else false;
  leb := fun x y => if Rle_dec x y then true else false;
  log_2 := ln 2
|}.

#[export] Instance R_exponential : Exponential R := {|
  np_exp := exp
|}.

(** *** IEEE-754 binary64 *)

Definition float_of_Z (z : Z) : float :=
  match z with
  | Z0 => PrimFloat.zero
  | Zpos p => PrimFloat.of_uint63 (Uint63.of_Z (Zpos p))
  | Zneg p => PrimFloat.opp (PrimFloat.of_uint63 (Uint63.of_Z (Zpos p)))
  end.

(** A decimal literal [n/d] whose numerator and denominator are below
    [2^53] is read as the correctly rounded quotient of two exact floats,
    which is the double nearest to [n/d], as Python reads it. *)
Definition float_of_Q (q : Q) : float :=
  PrimFloat.div (float_of_Z (Qnum q)) (float_of_Z (Zpos (Qden q))).

(** [math.log(2)] on binary64: the double nearest to ln 2,
    [0.6931471805599453]. *)
Definition float_log_2 : float := 0x1.62e42fefa39efp-1%float.

#[export] Instance float_arith : Arith float := {|
  of_Q := float_of_Q;
  of_nat := fun n => float_of_Z (Z.of_nat n);
  add := PrimFloat.add;
  sub := PrimFloat.sub;
  mul := PrimFloat.mul;
  div := PrimFloat.div;
  opp := PrimFloat.opp;
  eq0 := fun x => PrimFloat.eqb x PrimFloat.zero;
  leb := PrimFloat.leb;
  log_2 := float_log_2
|}.

(** ** The script *)

Section Script.

Context {T : Type} `{Arith T}.

Local Open Scope arith_scope.

(** [x / y] on Python floats raises when [y == 0]. *)
Definition pydiv (x y : T) : resultado T :=
  if eq0 y then Raise ZeroDivisionError else Ok (x / y).

(** *** Lines 35-38: unit constants *)

Definition AÑO : T := of_Q 365.25 * of_Q 24 * of_Q 3600.
Definition DIA : T := of_Q 24 * of_Q 3600.
Definition HORA : T := of_Q 3600.
Definition MIN : T := of_Q 60.

(** *** Lines 40-89: the isotope catalog *)

Record Isotopo : Type := {
  t12_s : T;
  modo : string;
  nota_t12 : string;
  aplicacion : string
}.

(** A Python dict keeps insertion order and [list(d.keys())] feeds the
    select boxes, so the dicts are association lists. *)
Definition isotopos : list (string * Isotopo) := [
  ("Carbono-14 (C-14)",
   {| t12_s := of_Q 5730 * AÑO;
      modo := "β⁻";
      nota_t12 := "5730 años";
      aplicacion := "Datación radiocarbónica en arqueología y geología." |});
  ("Uranio-238 (U-238)",
   {| t12_s := of_Q 4.468e9 * AÑO;
      modo := "α";
      nota_t12 := "4.47 × 10⁹ años";
      aplicacion := "Relojes geológicos y fuente de calor interno terrestre." |});
  ("Iodo-131 (I-131)",
   {| t12_s := of_Q 8.02 * DIA;
      modo := "β⁻, γ";
      nota_t12 := "≈ 8 días";
      aplicacion := "Diagnóstico y tratamiento de trastornos tiroideos." |});
  ("Cobalto-60 (Co-60)",
   {| t12_s := of_Q 5.27 * AÑO;
      modo := "β⁻, γ";
      nota_t12 := "5.27 años";
      aplicacion := "Radioterapia y gammagrafía industrial." |});
  ("Tecnecio-99m (Tc-99m)",
   {| t12_s := of_Q 6 * HORA;
      modo := "isómero → γ";
      nota_t12 := "6 horas";
      aplicacion := "Imagenología médica (medicina nuclear)." |});
  ("Cesio-137 (Cs-137)",
   {| t12_s := of_Q 30.17 * AÑO;
      modo := "β⁻, γ";
      nota_t12 := "30.17 años";
      aplicacion := "Calibración de detectores y rastreo ambiental." |});
  ("Radón-222 (Rn-222)",
   {| t12_s := of_Q 3.8235 * DIA;
      modo := "α";
      nota_t12 := "≈ 3.82 días";
      aplicacion := "Trazador en estudios de ventilación y geofísica." |});
  ("Plutonio-239 (Pu-239)",
   {| t12_s := of_Q 24100 * AÑO;
      modo := "α";
      nota_t12 := "24 100 años";
      aplicacion := "Combustible en reactores y fuentes de neutrones." |})
]%string.

(** *** Lines 106-112: the unit table *)

Definition unidades : list (string * T) := [
  ("segundos", of_Q 1.0);
  ("minutos", MIN);
  ("horas", HORA);
  ("días", DIA);
  ("años", AÑO)
]%string.

(** [d[k]]: the value of the first entry whose key is [k], else [KeyError]. *)
Fixpoint getitem {V : Type} (d : list (string * V)) (k : string)
  : resultado V :=
  match d with
  | [] => Raise (KeyError k)
  | (k', v) :: d' => if String.eqb k' k then Ok v else getitem d' k
  end.

Definition keys {V : Type} (d : list (string * V)) : list string :=
  map fst d.

(** *** Lines 95-117: the sidebar widgets *)

(** The Streamlit widgets are described by the arguments the script gives
    them; what a widget can return is a relation between that description
    and a value. *)

(** [st.selectbox(label, options)] returns one of [options]. *)
Definition selectbox {V : Type} (options : list V) (v : V) : Prop :=
  In v options.

(** [st.number_input(label, min_value, value, step)]: any float not below
    [min_value]. *)
Record NumberInput : Type := {
  ni_min_value : T;
  ni_value : T;
  ni_step : T
}.

Definition number_input (w : NumberInput) (v : T) : Prop :=
  leb (ni_min_value w) v = true.

(** [st.slider(label, min_value, max_value, value, step)]: a value
    [min_value + j * step] that does not exceed [max_value]. *)
Record Slider : Type := {
  sl_min_value : T;
  sl_max_value : T;
  sl_value : T;
  sl_step : T
}.

Definition slider (w : Slider) (v : T) : Prop :=
  exists j : nat,
    v = sl_min_value w + of_nat j * sl_step w /\
    leb v (sl_max_value w) = true.

Definition N0_widget : NumberInput :=
  {| ni_min_value := of_Q 1.0; ni_value := of_Q 1e6; ni_step := of_Q 1e5 |}.

Definition k_semividas_widget : Slider :=
  {| sl_min_value := of_Q 0.5; sl_max_value := of_Q 10.0;
     sl_value := of_Q 5.0; sl_step := of_Q 0.5 |}.

(** What the user has set in the sidebar. *)
Record Controles : Type := {
  iso_nombre : string;
  N0 : T;
  unidad_sel : string;
  k_semividas : T;
  logy : bool
}.

(** The settings the widgets of lines 95-117 can deliver. *)
Definition alcanzable (c : Controles) : Prop :=
  selectbox (keys isotopos) (iso_nombre c) /\
  number_input N0_widget (N0 c) /\
  selectbox (keys unidades) (unidad_sel c) /\
  slider k_semividas_widget (k_semividas c).

(** The sidebar as the script first shows it: the first isotope, the
    [value] of each numeric widget, the unit at [index=4]. *)
Definition controles_por_defecto : Controles :=
  {| iso_nombre := "Carbono-14 (C-14)";
     N0 := ni_value N0_widget;
     unidad_sel := "años";
     k_semividas := sl_value k_semividas_widget;
     logy := false |}.

(** *** [np.linspace(start, stop, num)], with [endpoint=True] *)

(** [y[-1] = v] on a non-empty array; nothing on an empty one. *)
Fixpoint set_last (y : list T) (v : T) : list T :=
  match y with
  | [] => []
  | [_] => [v]
  | x :: y' => x :: set_last y' v
  end.

(** NumPy's own steps: [y = arange(0, num)]; with [div = num - 1 > 0],
    [step = delta / div] and [y = y * step] (or [y / div * delta] when the
    step is zero); otherwise [y = y * delta]; then [y += start]; and at last
    [y[-1] = stop] when [num > 1]. *)
Definition linspace (start stop : T) (num : nat) : list T :=
  let div_ := (num - 1)%nat in
  let y := map of_nat (seq 0 num) in
  let delta := stop - start in
  let y :=
    if (0 <? div_)%nat then
      let step := delta / of_nat div_ in
      if eq0 step
      then map (fun v => v / of_nat div_ * delta) y
      else map (fun v => v * step) y
    else map (fun v => v * delta) y in
  let y := map (fun v => v + start) y in
  if (1 <? num)%nat then set_last y stop else y.

(** *** Lines 122-124: decay constant and mean lifetime *)

Record Constantes : Type := {
  lam : T;
  tau : T
}.

Definition constantes (t12 : T) : resultado Constantes :=
  lam <- pydiv log_2 t12 ;;
  tau <- pydiv (of_Q 1.0) lam ;;
  Ok {| lam := lam; tau := tau |}.

(** *** Lines 126-135: the time grid *)

Record Malla : Type := {
  Tmax_s : T;
  Tmax_u : T;
  t_u : list T;
  t_s : list T
}.

Definition malla (t12 factor k_semividas : T) (num_pts : nat)
  : resultado Malla :=
  let Tmax_s := k_semividas * t12 in
  Tmax_u <- pydiv Tmax_s factor ;;
  let t_u := linspace (of_nat 0) Tmax_u num_pts in
  let t_s := map (fun t => t * factor) t_u in
  Ok {| Tmax_s := Tmax_s; Tmax_u := Tmax_u; t_u := t_u; t_s := t_s |}.

(** Line 132. *)
Definition num_pts : nat := 600.

(** *** Lines 137-138 and 194-195: the decay law *)

Context `{Exponential T}.

(** The law of line 137 at one time [t], in seconds. *)
Definition N_de_t (N0 lam t : T) : T := N0 * np_exp (- lam * t).

Record Calculos : Type := {
  ctes : Constantes;
  grid : Malla;
  N_t : list T;
  A_t : list T;
  A_0 : T;        (* line 194: [lam*N0] *)
  A_t12 : T       (* line 195: [lam*N0*np.exp(-lam*t12)] *)
}.

(** Lines 137-138 and 194-195, once [lam] and the grid are there. *)
Definition curvas (c : Constantes) (g : Malla) (N0 t12 : T) : Calculos :=
  let N_t := map (N_de_t N0 (lam c)) (t_s g) in
  let A_t := map (fun n => lam c * n) N_t in
  {| ctes := c; grid := g; N_t := N_t; A_t := A_t;
     A_0 := lam c * N0;
     A_t12 := lam c * N0 * np_exp (- lam c * t12) |}.

(** Lines 122-138 and 194-195 as a function of the four numbers and of the
    number of grid points. *)
Definition calculos (t12 N0 factor k_semividas : T) (num_pts : nat)
  : resultado Calculos :=
  c <- constantes t12 ;;
  g <- malla t12 factor k_semividas num_pts ;;
  Ok (curvas c g N0 t12).

(** *** Lines 122-138 with any Python integer for [num_pts] *)

(** [np.linspace] checks its count before it builds anything: a negative
    [num] raises [ValueError]. *)
Definition np_linspace (start stop : T) (num : Z) : resultado (list T) :=
  if (num <? 0)%Z then Raise ValueError
  else Ok (linspace start stop (Z.to_nat num)).

Definition malla_int (t12 factor k_semividas : T) (num_pts : Z)
  : resultado Malla :=
  let Tmax_s := k_semividas * t12 in
  Tmax_u <- pydiv Tmax_s factor ;;
  t_u <- np_linspace (of_nat 0) Tmax_u num_pts ;;
  let t_s := map (fun t => t * factor) t_u in
  Ok {| Tmax_s := Tmax_s; Tmax_u := Tmax_u; t_u := t_u; t_s := t_s |}.

Definition calculos_int (t12 N0 factor k_semividas : T) (num_pts : Z)
  : resultado Calculos :=
  c <- constantes t12 ;;
  g <- malla_int t12 factor k_semividas num_pts ;;
  Ok (curvas c g N0 t12).

(** Lines 158-162: the rows of the data frame [df]. *)
Fixpoint filas (t n a : list T) : list (T * T * T) :=
  match t, n, a with
  | x :: t', y :: n', z :: a' => (x, y, z) :: filas t' n' a'
  | _, _, _ => []
  end.

Definition df (c : Calculos) : list (T * T * T) :=
  filas (t_u (grid c)) (N_t c) (A_t c).

(** *** The script from the widget values to the curves *)

(** In the order of the script: [info] on line 96, [lam] and [tau] on lines
    123-124, [factor] on line 128, the grid on lines 129-135, the curves on
    lines 137-138. *)
Definition app (s : Controles) : resultado Calculos :=
  info <- getitem isotopos (iso_nombre s) ;;
  let t12 := t12_s info in
  c <- constantes t12 ;;
  factor <- getitem unidades (unidad_sel s) ;;
  g <- malla t12 factor (k_semividas s) num_pts ;;
  Ok (curvas c g (N0 s) t12).

(** *** Lines 158-172: what is shown and offered for download *)

(** [s.replace(old, new)] where [old] and [new] are one character each:
    every occurrence of [old] becomes [new].  A string is its UTF-8 bytes;
    an ASCII byte never lies inside a longer UTF-8 sequence, so replacing
    bytes and replacing characters agree for ASCII [old] and [new]. *)
Fixpoint replace (old new : Ascii.ascii) (s : string) : string :=
  match s with
  | EmptyString => EmptyString
  | String a s' =>
      String (if Ascii.eqb a old then new else a) (replace old new s')
  end.

(** Line 167: [f"decaimiento_{iso_nombre.replace(' ', '_')}.csv"]. *)
Definition file_name (iso_nombre : string) : string :=
  ("decaimiento_" ++ replace " "%char "_"%char iso_nombre ++ ".csv")%string.

(** Line 172: [df.head(10)], the first ten rows, or all when fewer. *)
Definition head {A : Type} (n : nat) (rows : list A) : list A :=
  firstn n rows.

End Script.

(** ** Checks on a binary64 grid *)

(** [l[i] < l[i+1]] for every [i], with the float comparison. *)
Fixpoint creciente (l : list float) : bool :=
  match l with
  | x :: (y :: _) as l' => PrimFloat.ltb x y && creciente l'
  | _ => true
  end.

(** The checks of one setting: the constants and the grid are computed, the
    grid has its first point at [0], it climbs strictly, in units and in
    seconds, and every argument [-lam * t_s] of [np.exp] lies in
    [[-7, 0]]. *)
Definition malla_sana (t12 factor k : float) : bool :=
  match constantes t12, malla t12 factor k num_pts with
  | Ok c, Ok g =>
      match t_u g with
      | t0 :: _ => PrimFloat.eqb t0 0
      | [] => false
      end
      && creciente (t_u g)
      && creciente (t_s g)
      && forallb (fun t =>
                    let x := PrimFloat.mul (PrimFloat.opp (lam c)) t in
                    PrimFloat.leb (-7) x && PrimFloat.leb x 0)
           (t_s g)
  | _, _ => false
  end.

(** The last time in seconds against [Tmax_s = k * t12]: the same float, or
    one of its two neighbours. *)
Definition vuelta_sana (t12 factor k : float) : bool :=
  match malla t12 factor k num_pts with
  | Ok g =>
      match nth_error (t_s g) (num_pts - 1) with
      | Some t =>
          PrimFloat.eqb t (Tmax_s g)
          || PrimFloat.eqb t (PrimFloat.next_up (Tmax_s g))
          || PrimFloat.eqb t (PrimFloat.next_down (Tmax_s g))
      | None => false
      end
  | Raise _ => false
  end.

(** The indices, counted from [i], of the times of [l] that equal [x]. *)
Fixpoint indices_de (x : float) (l : list float) (i : nat) : list nat :=
  match l with
  | [] => []
  | t :: l' =>
      if PrimFloat.eqb t x then i :: indices_de x l' (S i)
      else indices_de x l' (S i)
  end.

(** No time in seconds equals the half-life, or only the last one does and
    the slider is at its second position, one half-life. *)
Definition semivida_solo_al_final (t12 factor : float) (j : nat) : bool :=
  match malla t12 factor
          (add (sl_min_value k_semividas_widget)
             (mul (of_nat j) (sl_step k_semividas_widget))) num_pts with
  | Ok g =>
      match indices_de t12 (t_s g) 0 with
      | [] => true
      | [i] => Nat.eqb i 599 && Nat.eqb j 1
      | _ => false
      end
  | Raise _ => false
  end.

(** ** Binary64 values as reals *)

(** The real number a finite float stands for; [0] for the others. *)
Definition SF2R (s : spec_float) : R :=
  match s with
  | S754_finite sg m e =>
      ((if sg then -1 else 1) * IZR (Zpos m)
       * match e with
         | Zneg p => / IZR (2 ^ Zpos p)
         | _ => IZR (2 ^ e)
         end)%R
  | _ => 0%R
  end.

Definition float_R (x : float) : R := SF2R (Prim2SF x).

(** [float_log_2] is [log_2_num / 2^53]. *)
Definition log_2_num : Z := 6243314768165359.


Ltac potencias :=
  repeat match goal with
         | |- context [(?a ^ ?b)%Z] =>
             let v := eval vm_compute in (a ^ b)%Z in
             change (a ^ b)%Z with v
         end.

Ltac valor_float :=
  repeat match goal with
         | |- context [Prim2SF ?x] =>
             let v := eval vm_compute in (Prim2SF x) in
             change (Prim2SF x) with v
         end.

(** ** The grid in closed form *)

(** The [i]-th point of an [n]-point grid from [a] to [b] in exact
    arithmetic: [a] plus [i] steps of [(b - a) / (n - 1)]. *)
Definition punto (a b : R) (n i : nat) : R :=
  (a + INR i * ((b - a) / INR (n - 1)))%R.

(** A goal about decimal literals read as reals. *)
Ltac literal := simpl; unfold Q2R; simpl; lra.

(** ** Facts that hold in every arithmetic *)

Section Shape.

Context {T : Type} `{Arith T}.

Lemma set_last_length (y : list T) (v : T) :
  length (set_last y v) = length y.
Proof.
  induction y as [|x y IH]; [reflexivity|].
  destruct y as [|x' y]; [reflexivity|].
  change (set_last (x :: x' :: y) v) with (x :: set_last (x' :: y) v).
  simpl length in *. now rewrite IH.
Qed.

Lemma set_last_cons (a : T) (y : list T) (v : T) :
  y <> [] -> set_last (a :: y) v = a :: set_last y v.
Proof. destruct y; [contradiction|reflexivity]. Qed.

Lemma set_last_snoc (y : list T) (x v : T) :
  set_last (y ++ [x]) v = y ++ [v].
Proof.
  induction y as [|a y IH]; [reflexivity|].
  rewrite <- !app_comm_cons, set_last_cons, IH; [reflexivity|].
  destruct y; discriminate.
Qed.

Lemma linspace_length (start stop : T) (num : nat) :
  length (linspace start stop num) = num.
Proof.
  unfold linspace.
  repeat match goal with
         | |- context [if ?b then _ else _] => destruct b
         end;
    rewrite ?set_last_length, ?length_map, ?length_seq; reflexivity.
Qed.

(** With two points or more the last one is [stop] itself, in every
    arithmetic: NumPy assigns it. *)
Lemma linspace_last (start stop : T) (num : nat) :
  (2 <= num)%nat ->
  nth_error (linspace start stop num) (num - 1) = Some stop.
Proof.
  intros Hn. unfold linspace.
  assert (H1 : (1 <? num)%nat = true) by (apply Nat.ltb_lt; lia).
  rewrite H1.
  match goal with |- nth_error (set_last ?l _) _ = _ => set (y := l) end.
  assert (Ly : length y = num).
  { unfold y.
    repeat match goal with
           | |- context [if ?b then _ else _] => destruct b
           end; now rewrite !length_map, length_seq. }
  destruct (exists_last (l := y)) as (y' & x & ->).
  { intros E. rewrite E in Ly. simpl in Ly. lia. }
  rewrite set_last_snoc. rewrite length_app in Ly. simpl in Ly.
  replace (num - 1)%nat with (length y') by lia.
  now rewrite nth_error_app2, Nat.sub_diag by lia.
Qed.



(** The grid is built unless the unit factor is zero. *)
Lemma malla_ok (t12 factor k : T) (n : nat) :
  eq0 factor = false ->
  exists g, malla t12 factor k n = Ok g /\
            length (t_u g) = n /\ length (t_s g) = n.
Proof.
  intros Hf. unfold malla, pydiv. rewrite Hf. unfold bind.
  eexists. split; [reflexivity|]. simpl.
  now rewrite length_map, linspace_length.
Qed.

Lemma malla_raise (t12 factor k : T) (n : nat) :
  eq0 factor = true -> malla t12 factor k n = Raise ZeroDivisionError.
Proof. intros Hf. unfold malla, pydiv. now rewrite Hf. Qed.

Lemma malla_lengths (t12 factor k : T) (n : nat) (g : Malla) :
  malla t12 factor k n = Ok g -> length (t_u g) = n /\ length (t_s g) = n.
Proof.
  destruct (eq0 factor) eqn:Hf.
  - rewrite malla_raise by exact Hf. discriminate.
  - destruct (malla_ok t12 factor k n Hf) as (g' & -> & Hl).
    now intros [= <-].
Qed.

Context `{Exponential T}.

Lemma calculos_lengths (t12 N0 factor k : T) (n : nat) (c : Calculos) :
  calculos t12 N0 factor k n = Ok c ->
  length (t_u (grid c)) = n /\ length (t_s (grid c)) = n /\
  length (N_t c) = n /\ length (A_t c) = n.
Proof.
  unfold calculos.
  destruct (constantes t12) as [k0|e]; [|discriminate].
  unfold bind at 1.
  destruct (malla t12 factor k n) as [g|e] eqn:Hg; [|discriminate].
  intros [= <-]. unfold curvas. simpl.
  destruct (malla_lengths _ _ _ _ _ Hg) as [Hu Hs].
  now rewrite !length_map, Hu, Hs.
Qed.

Lemma filas_length (t n a : list T) :
  length n = length t -> length a = length t ->
  length (filas t n a) = length t.
Proof.
  revert n a. induction t as [|x t IH]; intros [|y n] [|z a]; simpl;
    try discriminate; auto.
Qed.

(** Once both lookups succeed the script is [calculos] on what they
    found. *)
Lemma app_calculos (s : Controles) (info : Isotopo) (factor : T) :
  getitem isotopos (iso_nombre s) = Ok info ->
  getitem unidades (unidad_sel s) = Ok factor ->
  app s = calculos (t12_s info) (N0 s) factor (k_semividas s) num_pts.
Proof.
  intros Hi Hf. unfold app, calculos. rewrite Hi. unfold bind at 1.
  destruct (constantes (t12_s info)); [|reflexivity].
  unfold bind at 1. now rewrite Hf.
Qed.

(** A key of a dict is found. *)
Lemma getitem_In {V : Type} (d : list (string * V)) (k : string) :
  In k (keys d) -> exists v, getitem d k = Ok v /\ In v (map snd d).
Proof.
  induction d as [|[k' v] d IH]; simpl; [contradiction|].
  intros Hin. destruct (String.eqb k' k) eqn:E.
  - exists v. auto.
  - destruct Hin as [->|Hin]; [now rewrite String.eqb_refl in E|].
    destruct (IH Hin) as (w & Hw & Hi). exists w. auto.
Qed.

End Shape.

(** ** The exact reading *)

Open Scope R_scope.

Lemma ln_2_pos : 0 < ln 2.
Proof. rewrite <- ln_1. apply ln_increasing; lra. Qed.

Lemma eq0_R (x : R) : eq0 x = true <-> x = 0.
Proof. simpl. destruct (Req_dec_T x 0); split; auto; discriminate. Qed.

Lemma eq0_R_false (x : R) : x <> 0 -> eq0 x = false.
Proof.
  intros Hx. destruct (eq0 x) eqn:E; [|reflexivity].
  apply eq0_R in E. contradiction.
Qed.

Lemma leb_R (x y : R) : leb x y = true <-> x <= y.
Proof. simpl. destruct (Rle_dec x y); split; auto; discriminate. Qed.

Lemma pydiv_R (x y : R) : y <> 0 -> pydiv x y = Ok (x / y).
Proof. intros Hy. unfold pydiv. now rewrite eq0_R_false. Qed.

Lemma pydiv_R_0 (x : R) : pydiv x 0 = Raise ZeroDivisionError.
Proof.
  unfold pydiv. assert (E : eq0 0 = true) by now apply eq0_R.
  now rewrite E.
Qed.

Lemma of_Q_one : of_Q 1.0 = 1.
Proof. simpl. unfold Q2R. simpl. field. Qed.

Lemma lam_R_neq_0 (t12 : R) : t12 <> 0 -> ln 2 / t12 <> 0.
Proof.
  intros Ht E. pose proof ln_2_pos as Hl.
  apply (Rmult_eq_compat_r t12) in E.
  unfold Rdiv in E.
  rewrite Rmult_assoc, Rinv_l, Rmult_1_r, Rmult_0_l in E by exact Ht.
  lra.
Qed.

Lemma lam_R_pos (t12 : R) : 0 < t12 -> 0 < ln 2 / t12.
Proof. intros Ht. apply Rdiv_lt_0_compat; [apply ln_2_pos|exact Ht]. Qed.

(** Lines 122-124 in exact arithmetic. *)
Lemma constantes_R (t12 : R) :
  t12 <> 0 ->
  constantes t12 = Ok {| lam := ln 2 / t12; tau := 1 / (ln 2 / t12) |}.
Proof.
  intros Ht. unfold constantes.
  change (@log_2 R R_arith) with (ln 2).
  rewrite (pydiv_R (ln 2) t12 Ht). unfold bind at 1.
  rewrite (pydiv_R _ _ (lam_R_neq_0 t12 Ht)). unfold bind.
  now rewrite of_Q_one.
Qed.

Lemma constantes_R_0 : constantes 0 = Raise ZeroDivisionError.
Proof. unfold constantes. now rewrite pydiv_R_0. Qed.

Lemma linspace_R (a b : R) (n : nat) :
  (2 <= n)%nat -> linspace a b n = map (punto a b n) (seq 0 n).
Proof.
  intros Hn. unfold linspace.
  assert (Hd : (0 <? n - 1)%nat = true) by (apply Nat.ltb_lt; lia).
  assert (H1 : (1 <? n)%nat = true) by (apply Nat.ltb_lt; lia).
  rewrite Hd, H1.
  assert (Hne : INR (n - 1) <> 0) by (apply not_0_INR; lia).
  match goal with
  | |- set_last ?l _ = _ =>
      assert (Hbody : l = map (punto a b n) (seq 0 n))
  end.
  { destruct (eq0 _); rewrite !map_map; apply map_ext; intros i;
      unfold punto; simpl; field; exact Hne. }
  rewrite Hbody.
  destruct n as [|m]; [lia|].
  rewrite seq_S, map_app.
  change (map (punto a b (S m)) [(0 + m)%nat])
    with [punto a b (S m) (0 + m)].
  rewrite set_last_snoc.
  replace (punto a b (S m) (0 + m)) with b; [reflexivity|].
  unfold punto. replace (S m - 1)%nat with m in * by lia.
  simpl Nat.add. field. exact Hne.
Qed.

Lemma nth_error_map_seq {B : Type} (f : nat -> B) (n i : nat) :
  (i < n)%nat -> nth_error (map f (seq 0 n)) i = Some (f i).
Proof.
  intros Hi. apply map_nth_error. rewrite nth_error_seq.
  apply Nat.ltb_lt in Hi. now rewrite Hi.
Qed.

(** Lines 126-135 in exact arithmetic. *)
Lemma malla_R (t12 factor k : R) (n : nat) :
  factor <> 0 ->
  malla t12 factor k n =
  Ok {| Tmax_s := k * t12;
        Tmax_u := k * t12 / factor;
        t_u := linspace 0 (k * t12 / factor) n;
        t_s := map (fun t => t * factor) (linspace 0 (k * t12 / factor) n) |}.
Proof. intros Hf. unfold malla. now rewrite (pydiv_R _ factor Hf). Qed.

(** Lines 122-138 and 194-195 in exact arithmetic. *)
Lemma calculos_R (t12 N0 factor k : R) (n : nat) :
  t12 <> 0 -> factor <> 0 ->
  calculos t12 N0 factor k n =
  Ok {| ctes := {| lam := ln 2 / t12; tau := 1 / (ln 2 / t12) |};
        grid := {| Tmax_s := k * t12;
                   Tmax_u := k * t12 / factor;
                   t_u := linspace 0 (k * t12 / factor) n;
                   t_s := map (fun t => t * factor)
                            (linspace 0 (k * t12 / factor) n) |};
        N_t := map (N_de_t N0 (ln 2 / t12))
                 (map (fun t => t * factor)
                    (linspace 0 (k * t12 / factor) n));
        A_t := map (fun x => ln 2 / t12 * x)
                 (map (N_de_t N0 (ln 2 / t12))
                    (map (fun t => t * factor)
                       (linspace 0 (k * t12 / factor) n)));
        A_0 := ln 2 / t12 * N0;
        A_t12 := ln 2 / t12 * N0 * exp (- (ln 2 / t12) * t12) |}.
Proof.
  intros Ht Hf. unfold calculos.
  now rewrite (constantes_R t12 Ht), (malla_R t12 factor k n Hf).
Qed.

Lemma filas_nth (t n a : list R) (i : nat) (x y z : R) :
  nth_error t i = Some x -> nth_error n i = Some y ->
  nth_error a i = Some z -> nth_error (filas t n a) i = Some (x, y, z).
Proof.
  revert t n a.
  induction i as [|i IH]; intros [|x' t] [|y' n] [|z' a]; simpl;
    try discriminate.
  - now intros [= ->] [= ->] [= ->].
  - apply IH.
Qed.

(** The half-life point of the law: [exp (- lam * t12) = 1/2]. *)
Lemma exp_half_life (t12 : R) :
  t12 <> 0 -> exp (- (ln 2 / t12) * t12) = / 2.
Proof.
  intros Ht. replace (- (ln 2 / t12) * t12) with (- ln 2) by (field; exact Ht).
  rewrite exp_Ropp, exp_ln by lra. reflexivity.
Qed.

Lemma exp_decreasing_le (x y : R) : x <= y -> exp (- y) <= exp (- x).
Proof.
  intros [Hlt | ->]; [|apply Rle_refl].
  left. apply exp_increasing. lra.
Qed.

(** ** The sampled curves on valid input *)

Section ValidInput.

Variables t12 N0 factor k : R.
Variable n : nat.

Hypothesis Ht12 : 0 < t12.
Hypothesis HN0 : 0 < N0.
Hypothesis Hfactor : 0 < factor.
Hypothesis Hk : 0 < k.
Hypothesis Hn : (2 <= n)%nat.

Let Tu : R := k * t12 / factor.
Let lam0 : R := ln 2 / t12.

Lemma Tu_pos : 0 < Tu.
Proof.
  unfold Tu. apply Rdiv_lt_0_compat; [|exact Hfactor].
  apply Rmult_lt_0_compat; assumption.
Qed.

Lemma INR_pred_pos : 0 < INR (n - 1).
Proof. apply lt_0_INR. lia. Qed.

Lemma punto_grid (i : nat) : punto 0 Tu n i = INR i * (Tu / INR (n - 1)).
Proof. unfold punto. pose proof INR_pred_pos. field. lra. Qed.

Lemma punto_nonneg (i : nat) : 0 <= punto 0 Tu n i.
Proof.
  rewrite punto_grid. apply Rmult_le_pos; [apply pos_INR|].
  left. apply Rdiv_lt_0_compat; [apply Tu_pos|apply INR_pred_pos].
Qed.

Lemma punto_mono (i : nat) : punto 0 Tu n i <= punto 0 Tu n (S i).
Proof.
  rewrite !punto_grid, S_INR.
  assert (0 < Tu / INR (n - 1))
    by (apply Rdiv_lt_0_compat; [apply Tu_pos|apply INR_pred_pos]).
  nra.
Qed.

(** The [i]-th sample of each curve, in closed form. *)
Lemma muestra (i : nat) :
  (i < n)%nat ->
  exists c,
    calculos t12 N0 factor k n = Ok c /\
    nth_error (t_u (grid c)) i = Some (punto 0 Tu n i) /\
    nth_error (t_s (grid c)) i = Some (punto 0 Tu n i * factor) /\
    nth_error (N_t c) i
      = Some (N0 * exp (- (lam0 * (punto 0 Tu n i * factor)))) /\
    nth_error (A_t c) i
      = Some (lam0 * (N0 * exp (- (lam0 * (punto 0 Tu n i * factor))))).
Proof.
  intros Hi. rewrite calculos_R by lra. eexists. split; [reflexivity|].
  simpl. rewrite !nth_error_map, linspace_R by exact Hn.
  rewrite nth_error_map_seq by exact Hi. simpl. unfold N_de_t. simpl.
  fold Tu lam0.
  replace (- lam0 * (punto 0 Tu n i * factor))
    with (- (lam0 * (punto 0 Tu n i * factor))) by ring.
  repeat split.
Qed.

Lemma muestras (c : Calculos) (i : nat) :
  calculos t12 N0 factor k n = Ok c ->
  (i < n)%nat ->
  nth_error (t_u (grid c)) i = Some (punto 0 Tu n i) /\
  nth_error (t_s (grid c)) i = Some (punto 0 Tu n i * factor) /\
  nth_error (N_t c) i
    = Some (N0 * exp (- (lam0 * (punto 0 Tu n i * factor)))) /\
  nth_error (A_t c) i
    = Some (lam0 * (N0 * exp (- (lam0 * (punto 0 Tu n i * factor))))).
Proof.
  intros Hc Hi. destruct (muestra i Hi) as (c' & Hc' & Hs).
  rewrite Hc in Hc'. injection Hc' as <-. exact Hs.
Qed.

(** Along the grid the exponent grows, so the population falls. *)
Lemma N_step (i : nat) :
  N0 * exp (- (lam0 * (punto 0 Tu n (S i) * factor)))
  <= N0 * exp (- (lam0 * (punto 0 Tu n i * factor))).
Proof.
  apply Rmult_le_compat_l; [lra|]. apply exp_decreasing_le.
  apply Rmult_le_compat_l; [left; apply (lam_R_pos t12 Ht12)|].
  apply Rmult_le_compat_r; [lra|apply punto_mono].
Qed.

End ValidInput.

(** ** The claims, in exact arithmetic *)

(** C1. On valid input (positive half-life, population and unit factor) the
    computation succeeds; its decay constant is [ln 2 / t12], which is
    positive; and at every grid time [t_unit] the population is
    [N0 * exp (- lam * (t_unit * factor))] and the activity is [lam] times
    that population. *)
Theorem C1_decay_law (t12 N0 factor k : R) (n : nat) :
  0 < t12 -> 0 < N0 -> 0 < factor ->
  exists c,
    calculos t12 N0 factor k n = Ok c /\
    lam (ctes c) = ln 2 / t12 /\
    0 < lam (ctes c) /\
    length (t_u (grid c)) = n /\
    forall (i : nat) (t_unit : R),
      nth_error (t_u (grid c)) i = Some t_unit ->
      nth_error (N_t c) i
        = Some (N0 * exp (- lam (ctes c) * (t_unit * factor))) /\
      nth_error (A_t c) i
        = Some (lam (ctes c)
                * (N0 * exp (- lam (ctes c) * (t_unit * factor)))).
Proof.
  intros Ht HN Hf. rewrite calculos_R by lra.
  eexists. split; [reflexivity|]. simpl.
  split; [reflexivity|]. split; [now apply lam_R_pos|].
  split; [apply linspace_length|].
  intros i t_unit Hi. rewrite !nth_error_map, Hi. simpl. now split.
Qed.

Lemma C1_decay_law_witness :
  exists c,
    calculos 21600 1000000 3600 5 600 = Ok c /\
    lam (ctes c) = ln 2 / 21600 /\
    0 < lam (ctes c) /\
    length (t_u (grid c)) = 600%nat /\
    forall (i : nat) (t_unit : R),
      nth_error (t_u (grid c)) i = Some t_unit ->
      nth_error (N_t c) i
        = Some (1000000 * exp (- lam (ctes c) * (t_unit * 3600))) /\
      nth_error (A_t c) i
        = Some (lam (ctes c)
                * (1000000 * exp (- lam (ctes c) * (t_unit * 3600)))).
Proof. apply (C1_decay_law 21600 1000000 3600 5 600); lra. Defined.


(** C4. On valid input the populations and the activities never increase
    from one grid point to the next. *)
Theorem C4_non_increasing (t12 N0 factor k : R) (n : nat) :
  0 < t12 -> 0 < N0 -> 0 < factor -> 0 < k -> (2 <= n)%nat ->
  exists c,
    calculos t12 N0 factor k n = Ok c /\
    (forall (i : nat) (x y : R),
        nth_error (N_t c) i = Some x ->
        nth_error (N_t c) (S i) = Some y -> y <= x) /\
    (forall (i : nat) (x y : R),
        nth_error (A_t c) i = Some x ->
        nth_error (A_t c) (S i) = Some y -> y <= x).
Proof.
  intros Ht HN Hf Hk Hn.
  destruct (muestra t12 N0 factor k n Ht Hf Hn 0 ltac:(lia)) as (c & Hc & _).
  destruct (calculos_lengths _ _ _ _ _ _ Hc) as (_ & _ & LN & LA).
  pose proof (lam_R_pos t12 Ht) as Hl.
  exists c. split; [exact Hc|]. split; intros i x y Hx Hy.
  - assert (Hi : (S i < n)%nat)
      by (rewrite <- LN; apply nth_error_Some; rewrite Hy; discriminate).
    destruct (muestras t12 N0 factor k n Ht Hf Hn c i Hc ltac:(lia))
      as (_ & _ & Hxi & _).
    destruct (muestras t12 N0 factor k n Ht Hf Hn c (S i) Hc Hi)
      as (_ & _ & Hyi & _).
    rewrite Hxi in Hx. rewrite Hyi in Hy.
    injection Hx as <-. injection Hy as <-.
    now apply N_step.
  - assert (Hi : (S i < n)%nat)
      by (rewrite <- LA; apply nth_error_Some; rewrite Hy; discriminate).
    destruct (muestras t12 N0 factor k n Ht Hf Hn c i Hc ltac:(lia))
      as (_ & _ & _ & Hxi).
    destruct (muestras t12 N0 factor k n Ht Hf Hn c (S i) Hc Hi)
      as (_ & _ & _ & Hyi).
    rewrite Hxi in Hx. rewrite Hyi in Hy.
    injection Hx as <-. injection Hy as <-.
    apply Rmult_le_compat_l; [lra|]. now apply N_step.
Qed.

Lemma C4_non_increasing_witness :
  exists c,
    calculos 21600 1000000 3600 5 600 = Ok c /\
    (forall (i : nat) (x y : R),
        nth_error (N_t c) i = Some x ->
        nth_error (N_t c) (S i) = Some y -> y <= x) /\
    (forall (i : nat) (x y : R),
        nth_error (A_t c) i = Some x ->
        nth_error (A_t c) (S i) = Some y -> y <= x).
Proof. apply (C4_non_increasing 21600 1000000 3600 5 600); try lra; lia. Defined.

(** C5. On valid input the first sample is at time [0], with population
    [N0] and activity [lam * N0], where [lam] is the decay constant
    [ln 2 / t12]. *)
Theorem C5_first_sample (t12 N0 factor k : R) (n : nat) :
  0 < t12 -> 0 < N0 -> 0 < factor -> 0 < k -> (2 <= n)%nat ->
  exists c,
    calculos t12 N0 factor k n = Ok c /\
    lam (ctes c) = ln 2 / t12 /\
    nth_error (t_u (grid c)) 0 = Some 0 /\
    nth_error (N_t c) 0 = Some N0 /\
    nth_error (A_t c) 0 = Some (lam (ctes c) * N0) /\
    nth_error (A_t c) 0 = Some (ln 2 / t12 * N0) /\
    nth_error (df c) 0 = Some (0, N0, lam (ctes c) * N0) /\
    nth_error (df c) 0 = Some (0, N0, ln 2 / t12 * N0).
Proof.
  intros Ht HN Hf Hk Hn.
  destruct (muestra t12 N0 factor k n Ht Hf Hn 0 ltac:(lia))
    as (c & Hc & Hu & _ & HNt & HAt).
  assert (Hl : lam (ctes c) = ln 2 / t12).
  { rewrite calculos_R in Hc by lra. now injection Hc as <-. }
  assert (Hp : punto 0 (k * t12 / factor) n 0 = 0)
    by (unfold punto; simpl; lra).
  rewrite Hp in *.
  replace (- (ln 2 / t12 * (0 * factor))) with 0 in * by ring.
  rewrite exp_0, Rmult_1_r in *.
  exists c. rewrite Hl.
  repeat split; try assumption; unfold df; now apply filas_nth.
Qed.

Lemma C5_first_sample_witness :
  exists c,
    calculos 21600 1000000 3600 5 600 = Ok c /\
    lam (ctes c) = ln 2 / 21600 /\
    nth_error (t_u (grid c)) 0 = Some 0 /\
    nth_error (N_t c) 0 = Some 1000000 /\
    nth_error (A_t c) 0 = Some (lam (ctes c) * 1000000) /\
    nth_error (A_t c) 0 = Some (ln 2 / 21600 * 1000000) /\
    nth_error (df c) 0 = Some (0, 1000000, lam (ctes c) * 1000000) /\
    nth_error (df c) 0 = Some (0, 1000000, ln 2 / 21600 * 1000000).
Proof. apply (C5_first_sample 21600 1000000 3600 5 600); try lra; lia. Defined.


(** C7. On valid input no sample is negative: every grid time is at least
    [0], and every population and every activity is strictly positive. *)
Theorem C7_no_negative_sample (t12 N0 factor k : R) (n : nat) :
  0 < t12 -> 0 < N0 -> 0 < factor -> 0 < k -> (2 <= n)%nat ->
  exists c,
    calculos t12 N0 factor k n = Ok c /\
    Forall (fun t => 0 <= t) (t_u (grid c)) /\
    Forall (fun x => 0 < x) (N_t c) /\
    Forall (fun a => 0 < a) (A_t c) /\
    Forall (fun r => 0 <= fst (fst r) /\ 0 <= snd (fst r) /\ 0 <= snd r)
      (df c).
Proof.
  intros Ht HN Hf Hk Hn.
  pose proof (lam_R_pos t12 Ht) as Hl.
  assert (Hu : Forall (fun t => 0 <= t) (linspace 0 (k * t12 / factor) n)).
  { rewrite linspace_R by exact Hn. apply Forall_map, Forall_forall.
    intros i _. now apply punto_nonneg. }
  assert (HNt : forall l, Forall (fun x => 0 < x) (map (N_de_t N0 (ln 2 / t12)) l)).
  { intros l. apply Forall_map, Forall_forall. intros t _.
    unfold N_de_t. simpl. apply Rmult_lt_0_compat; [exact HN|apply exp_pos]. }
  assert (HAt : forall l, Forall (fun x => 0 < x) l ->
                          Forall (fun a => 0 < a) (map (fun x => ln 2 / t12 * x) l)).
  { intros l Hpos. apply Forall_map. revert Hpos. apply Forall_impl.
    intros x Hx. now apply Rmult_lt_0_compat. }
  rewrite calculos_R by lra. eexists. split; [reflexivity|].
  unfold df. cbn [ctes grid N_t A_t t_u t_s].
  split; [exact Hu|]. split; [apply HNt|]. split; [apply HAt, HNt|].
  set (tu := linspace 0 (k * t12 / factor) n) in *.
  generalize (HNt (map (fun t => t * factor) tu)).
  generalize (HAt _ (HNt (map (fun t => t * factor) tu))).
  generalize (map (N_de_t N0 (ln 2 / t12)) (map (fun t => t * factor) tu)).
  intros ns. generalize (map (fun x => ln 2 / t12 * x) ns).
  intros az Haz Hns. revert ns az Hns Haz.
  induction Hu as [|t ts Ht0 Hts IH]; intros [|x ns] [|a az] Hns Haz;
    simpl; try constructor.
  - inversion Hns; inversion Haz; subst. simpl. repeat split; lra.
  - inversion Hns; inversion Haz; subst. now apply IH.
Qed.

Lemma C7_no_negative_sample_witness :
  exists c,
    calculos 21600 1000000 3600 5 600 = Ok c /\
    Forall (fun t => 0 <= t) (t_u (grid c)) /\
    Forall (fun x => 0 < x) (N_t c) /\
    Forall (fun a => 0 < a) (A_t c) /\
    Forall (fun r => 0 <= fst (fst r) /\ 0 <= snd (fst r) /\ 0 <= snd r)
      (df c).
Proof.
  apply (C7_no_negative_sample 21600 1000000 3600 5 600); try lra; lia.
Defined.

(** Times a unit factor, the grid in units is the grid of seconds. *)
Lemma t_s_R (X factor : R) (n : nat) :
  factor <> 0 ->
  map (fun t => t * factor) (linspace 0 (X / factor) n) = linspace 0 X n.
Proof.
  intros Hf. destruct (le_lt_dec 2 n) as [Hn|Hn].
  - rewrite !linspace_R by exact Hn. rewrite map_map. apply map_ext.
    intros i. unfold punto.
    assert (INR (n - 1) <> 0) by (apply not_0_INR; lia).
    now field.
  - destruct n as [|[|n]]; [reflexivity| |lia].
    unfold linspace. simpl. f_equal. now field.
Qed.

(** C9, in exact arithmetic.  Two runs that differ only in the unit factor
    (both factors positive) recover the same grid of seconds,
    [linspace 0 (k * t12) n], and produce the same populations and the same
    activities. *)
Theorem C9_unit_independence (t12 N0 k u1 u2 : R) (n : nat) :
  0 < t12 -> 0 < u1 -> 0 < u2 ->
  exists c1 c2,
    calculos t12 N0 u1 k n = Ok c1 /\
    calculos t12 N0 u2 k n = Ok c2 /\
    t_s (grid c1) = linspace 0 (k * t12) n /\
    t_s (grid c2) = linspace 0 (k * t12) n /\
    N_t c1 = N_t c2 /\
    A_t c1 = A_t c2.
Proof.
  intros Ht H1 H2. rewrite !calculos_R by lra.
  do 2 eexists. split; [reflexivity|]. split; [reflexivity|].
  cbn [grid N_t A_t t_s]. rewrite !t_s_R by lra. repeat split.
Qed.

Lemma C9_unit_independence_witness :
  exists c1 c2,
    calculos 21600 1000000 1 5 600 = Ok c1 /\
    calculos 21600 1000000 60 5 600 = Ok c2 /\
    t_s (grid c1) = linspace 0 (5 * 21600) 600 /\
    t_s (grid c2) = linspace 0 (5 * 21600) 600 /\
    N_t c1 = N_t c2 /\
    A_t c1 = A_t c2.
Proof. apply (C9_unit_independence 21600 1000000 5 1 60 600); lra. Defined.

(** C3, as the script has it.  There is no validation step and no
    invalid-parameter error.  In every arithmetic, binary64 included, lines
    122-138 raise [ZeroDivisionError], before any curve is built, exactly
    when one of their three divisors is zero: the half-life (line 123), the
    decay constant (line 124) or the unit factor (line 129).  Otherwise a
    negative number of points makes [np.linspace] raise [ValueError], and
    every other input, whatever the signs of the parameters, gives as many
    samples as points were asked for, zero and one included.  In exact
    arithmetic the decay constant is never zero, so the divisors that count
    are the half-life and the unit factor; in binary64 an infinite half-life
    has a zero decay constant and raises on line 124. *)
Theorem C3_no_validation :
  (forall (T : Type) (HA : Arith T) (HE : Exponential T)
          (t12 N0 factor k : T) (n : Z),
      (eq0 t12 || eq0 (div log_2 t12) || eq0 factor = true ->
       calculos_int t12 N0 factor k n = Raise ZeroDivisionError) /\
      (eq0 t12 || eq0 (div log_2 t12) || eq0 factor = false ->
       (n < 0)%Z ->
       calculos_int t12 N0 factor k n = Raise ValueError) /\
      (eq0 t12 || eq0 (div log_2 t12) || eq0 factor = false ->
       (0 <= n)%Z ->
       exists c,
         calculos_int t12 N0 factor k n = Ok c /\
         calculos t12 N0 factor k (Z.to_nat n) = Ok c /\
         length (df c) = Z.to_nat n)) /\
  (forall t12 factor : R,
      eq0 t12 || eq0 (div log_2 t12) || eq0 factor = true
      <-> t12 = 0 \/ factor = 0) /\
  (eq0 PrimFloat.infinity = false /\
   eq0 (div log_2 PrimFloat.infinity) = true).
Proof.
  split; [|split].
  - intros T HA HE t12 N0 factor k n.
    unfold calculos_int, calculos, constantes, malla_int, malla, np_linspace,
      pydiv.
    split; [|split].
    + intros Hz. destruct (eq0 t12); cbn [bind]; [reflexivity|].
      destruct (eq0 (div log_2 t12)); cbn [bind]; [reflexivity|].
      simpl in Hz. now rewrite Hz.
    + intros Hz Hn. apply orb_false_iff in Hz. destruct Hz as [Hz Hf].
      apply orb_false_iff in Hz. destruct Hz as [Ht Hl].
      rewrite Ht. cbn [bind]. rewrite Hl. cbn [bind]. rewrite Hf.
      cbn [bind]. apply Z.ltb_lt in Hn. now rewrite Hn.
    + intros Hz Hn. apply orb_false_iff in Hz. destruct Hz as [Hz Hf].
      apply orb_false_iff in Hz. destruct Hz as [Ht Hl].
      rewrite Ht. cbn [bind]. rewrite Hl. cbn [bind]. rewrite Hf.
      cbn [bind]. apply Z.ltb_ge in Hn. rewrite Hn. cbn [bind].
      eexists. split; [reflexivity|]. split; [reflexivity|].
      unfold df, curvas. cbn [grid N_t A_t t_u t_s].
      rewrite filas_length; rewrite ?length_map, ?linspace_length;
        reflexivity.
  - intros t12 factor. rewrite !orb_true_iff, !eq0_R. split.
    + intros [[Ht | Hl] | Hf]; [now left| |now right].
      destruct (Req_dec_T t12 0) as [E | E]; [now left|].
      exfalso. now apply (lam_R_neq_0 t12 E).
    + intros [Ht | Hf]; [left; now left|now right].
  - split; vm_compute; reflexivity.
Qed.

Lemma C3_no_validation_witness :
  (calculos_int (T:=R) 0 1000000 3600 5 600 = Raise ZeroDivisionError) /\
  (calculos_int (T:=R) 21600 1000000 3600 5 (-1) = Raise ValueError) /\
  (exists c, calculos_int (T:=R) (-21600) (-1) (-3600) (-5) 1 = Ok c /\
             calculos (-21600) (-1) (-3600) (-5) (Z.to_nat 1) = Ok c /\
             length (df c) = Z.to_nat 1) /\
  (calculos_int (T:=float) (H0:={| np_exp := fun _ => 1%float |})
     PrimFloat.infinity 1000000%float 3600%float 5%float 600
   = Raise ZeroDivisionError).
Proof.
  assert (H0 : eq0 0 = true) by now apply eq0_R.
  assert (Hno : forall t12 factor : R,
             t12 <> 0 -> factor <> 0 ->
             eq0 t12 || eq0 (div log_2 t12) || eq0 factor = false).
  { intros t12 factor Ht Hf.
    destruct (eq0 t12 || eq0 (div log_2 t12) || eq0 factor) eqn:E;
      [|reflexivity].
    apply (proj1 (proj2 C3_no_validation)) in E. tauto. }
  split; [|split; [|split]].
  - apply (proj1 C3_no_validation). cbn [orb]. now rewrite H0.
  - apply (proj1 C3_no_validation); [apply Hno; lra|lia].
  - apply (proj1 C3_no_validation); [apply Hno; lra|lia].
  - apply (proj1 C3_no_validation). reflexivity.
Defined.

(** C3 fails as stated: with [N0 = 0] (and Tc-99m's half-life, seconds, five
    half-lives) the computation raises nothing and returns 600 samples, each
    of population [0]; with one sample point it returns the single time
    [0]. *)
Lemma C3_counterexample :
  (exists c,
      calculos (6 * 3600) 0 1 5 600 = Ok c /\
      length (df c) = 600%nat /\
      Forall (fun x => x = 0) (N_t c)) /\
  (exists c,
      calculos (6 * 3600) 1000000 1 5 1 = Ok c /\
      t_u (grid c) = [0] /\ N_t c = [1000000]).
Proof.
  split.
  - pose proof (calculos_R (6 * 3600) 0 1 5 600 ltac:(lra) ltac:(lra)) as Hc.
    destruct (calculos_lengths _ _ _ _ _ _ Hc) as (Lu & _ & LN & LA).
    eexists. split; [exact Hc|]. split.
    + unfold df. rewrite filas_length; congruence.
    + cbn [N_t]. apply Forall_map, Forall_forall. intros t _.
      unfold N_de_t. simpl. ring.
  - rewrite calculos_R by lra. eexists. split; [reflexivity|].
    cbn [grid N_t t_u t_s]. unfold linspace. simpl. split.
    + f_equal. ring.
    + unfold N_de_t. simpl. f_equal.
      replace (- (ln 2 / (6 * 3600)) * ((0 * (5 * (6 * 3600) / 1 - 0) + 0) * 1))
        with 0 by (field; lra).
      rewrite exp_0. ring.
Qed.

(** *** The constants of lines 35-112 in binary64 *)

(** The literals of the script, read by [float_of_Q], are the doubles
    Python reads. *)
Lemma literals_binary64 :
  map float_of_Q [365.25; 4.468e9; 8.02; 5.27; 30.17; 3.8235; 0.5; 1e6]%Q
  = [365.25; 4468000000; 8.02; 5.27; 30.17; 3.8235; 0.5; 1000000]%float.
Proof. reflexivity. Qed.

(** The catalog half-lives, in seconds, as Python prints them. *)
Lemma isotopos_binary64 :
  map (fun p => t12_s (snd p)) (isotopos (T:=float))
  = [180825048000; 1.409993568e+17; 692928; 166308552; 21600; 952092792;
     330350.4; 760538160000]%float.
Proof. reflexivity. Qed.

Lemma unidades_binary64 :
  map snd (unidades (T:=float)) = [1; 60; 3600; 86400; 31557600]%float.
Proof. reflexivity. Qed.

Lemma positivos_binary64 :
  forallb (fun p => PrimFloat.ltb 0 (t12_s (snd p))) (isotopos (T:=float))
  && forallb (fun p => PrimFloat.ltb 0 (snd p)) (unidades (T:=float))
  = true.
Proof. reflexivity. Qed.

(** *** The widgets keep the computation in its domain *)

Lemma of_Q_pos (q : Q) : (0 < Qnum q)%Z -> 0 < of_Q q.
Proof.
  intros Hq. simpl. unfold Q2R. apply Rmult_lt_0_compat.
  - now apply IZR_lt.
  - apply Rinv_0_lt_compat, IZR_lt. reflexivity.
Qed.

Lemma AÑO_pos : 0 < AÑO.
Proof.
  unfold AÑO. apply Rmult_lt_0_compat; [apply Rmult_lt_0_compat|];
    now apply of_Q_pos.
Qed.

Lemma DIA_pos : 0 < DIA.
Proof. unfold DIA. apply Rmult_lt_0_compat; now apply of_Q_pos. Qed.

Lemma isotopos_pos :
  Forall (fun info : Isotopo => 0 < t12_s info) (map snd isotopos).
Proof.
  pose proof AÑO_pos. pose proof DIA_pos.
  repeat constructor; cbn [t12_s]; unfold HORA;
    apply Rmult_lt_0_compat; try assumption; now apply of_Q_pos.
Qed.

Lemma MIN_R : MIN = 60.
Proof. unfold MIN. literal. Qed.

Lemma HORA_R : HORA = 3600.
Proof. unfold HORA. literal. Qed.

Lemma DIA_R : DIA = 86400.
Proof. unfold DIA. literal. Qed.

Lemma AÑO_R : AÑO = 31557600.
Proof. unfold AÑO. literal. Qed.

Lemma unidades_R :
  map snd unidades = [1; 60; 3600; 86400; 31557600].
Proof.
  unfold unidades. cbn [map snd].
  now rewrite of_Q_one, MIN_R, HORA_R, DIA_R, AÑO_R.
Qed.

Lemma slider_R (v : R) :
  slider k_semividas_widget v -> 0.5 <= v <= 10.
Proof.
  intros (j & -> & Hmax). apply leb_R in Hmax. revert Hmax.
  pose proof (pos_INR j) as Hj. literal.
Qed.

Lemma number_input_R (v : R) :
  number_input N0_widget v -> 1 <= v.
Proof.
  unfold number_input. intros Hv. apply leb_R in Hv. revert Hv. literal.
Qed.

(** C10.  Whatever the widgets deliver, the parameters are in the domain of
    the computation, although the script validates nothing: the chosen
    half-life is positive, [N0 >= 1], the unit factor is one of 1, 60, 3600,
    86400 and 31557600, the number of half-lives lies in [[0.5, 10]],
    [num_pts] is 600; and the computation succeeds.  The eight half-lives
    and the five unit factors are positive as binary64 values too. *)
Theorem C10_widgets_in_domain (c : Controles) :
  alcanzable c ->
  length (isotopos (T:=R)) = 8%nat /\
  Forall (fun info : Isotopo => 0 < t12_s info) (map snd isotopos) /\
  map snd unidades = [1; 60; 3600; 86400; 31557600] /\
  num_pts = 600%nat /\
  forallb (fun p => PrimFloat.ltb 0 (t12_s (snd p))) (isotopos (T:=float))
  && forallb (fun p => PrimFloat.ltb 0 (snd p)) (unidades (T:=float))
  = true /\
  exists (info : Isotopo) (factor : R),
    getitem isotopos (iso_nombre c) = Ok info /\
    getitem unidades (unidad_sel c) = Ok factor /\
    0 < t12_s info /\
    1 <= N0 c /\
    In factor [1; 60; 3600; 86400; 31557600] /\
    0 < factor /\
    0.5 <= k_semividas c <= 10 /\
    (2 <= num_pts)%nat /\
    exists r, app c = Ok r /\ length (df r) = num_pts.
Proof.
  intros (Hiso & HN & Hun & Hk).
  split; [reflexivity|]. split; [exact isotopos_pos|].
  split; [exact unidades_R|]. split; [reflexivity|].
  split; [exact positivos_binary64|].
  destruct (getitem_In isotopos (iso_nombre c) Hiso) as (info & Hinfo & Iinfo).
  destruct (getitem_In unidades (unidad_sel c) Hun) as (factor & Hfac & Ifac).
  assert (Ht : 0 < t12_s info).
  { pose proof isotopos_pos as Hall. rewrite Forall_forall in Hall.
    now apply Hall. }
  rewrite unidades_R in Ifac.
  assert (Hf : 0 < factor).
  { simpl in Ifac. repeat destruct Ifac as [<-|Ifac]; lra. }
  exists info, factor.
  split; [exact Hinfo|]. split; [exact Hfac|]. split; [exact Ht|].
  split; [now apply number_input_R|].
  split; [exact Ifac|]. split; [exact Hf|].
  split; [now apply slider_R|]. split; [unfold num_pts; lia|].
  pose proof (calculos_R (t12_s info) (N0 c) factor (k_semividas c) num_pts
                ltac:(lra) ltac:(lra)) as Hr.
  destruct (calculos_lengths _ _ _ _ _ _ Hr) as (Lu & _ & LN & LA).
  eexists. split; [rewrite (app_calculos c info factor Hinfo Hfac); exact Hr|].
  unfold df. rewrite filas_length; congruence.
Qed.

Lemma C10_widgets_in_domain_witness :
  alcanzable (T:=R) controles_por_defecto /\
  exists (info : Isotopo) (factor : R),
    getitem isotopos "Carbono-14 (C-14)" = Ok info /\
    getitem unidades "años" = Ok factor /\
    0 < t12_s info /\
    0 < factor /\
    exists r, app controles_por_defecto = Ok r /\ length (df r) = num_pts.
Proof.
  assert (Ha : alcanzable (T:=R) controles_por_defecto).
  { unfold alcanzable, controles_por_defecto, selectbox.
    cbn [iso_nombre N0 unidad_sel k_semividas].
    split; [simpl; tauto|]. split.
    { apply leb_R. literal. }
    split; [simpl; tauto|].
    exists 9%nat. split; [|apply leb_R]; literal. }
  split; [exact Ha|].
  destruct (C10_widgets_in_domain controles_por_defecto Ha)
    as (_ & _ & _ & _ & _ & info & factor & Hi & Hu & Ht & _ & _ & Hf & _ & _
        & Hr).
  exists info, factor. auto.
Defined.

(** ** The binary64 reading of lines 35-135 *)

Close Scope R_scope.

(** The grid of the sidebar as first shown, in binary64: 600 points from
    [0] to [5 * 5730] years. *)
Example malla_por_defecto_binary64 :
  exists (info : Isotopo) (u : float) (g : Malla),
    getitem isotopos "Carbono-14 (C-14)" = Ok info /\
    getitem unidades "años" = Ok u /\
    malla (t12_s info) u (of_Q 5.0) num_pts = Ok g /\
    length (t_u g) = 600%nat /\
    Tmax_u g = 28650%float /\
    nth_error (t_u g) 0 = Some 0%float /\
    nth_error (t_u g) 1 = Some 47.8297161936561%float /\
    nth_error (t_u g) 599 = Some 28650%float.
Proof.
  do 3 eexists.
  repeat (split; [vm_compute; reflexivity|]).
  vm_compute; reflexivity.
Qed.

(** C8 fails as stated on the script's own arithmetic: for Cesio-137 the
    computed [lam * tau] is [0.9999999999999999], not [1]. *)
Lemma C8_counterexample :
  exists (info : Isotopo) (c : Constantes),
    getitem isotopos "Cesio-137 (Cs-137)" = Ok info /\
    constantes (t12_s info) = Ok c /\
    lam c = 7.280248168919498e-10%float /\
    tau c = 1373579549.4845273%float /\
    PrimFloat.mul (lam c) (tau c) = 0.9999999999999999%float /\
    PrimFloat.eqb (PrimFloat.mul (lam c) (tau c)) 1 = false.
Proof.
  do 2 eexists. split; [vm_compute; reflexivity|].
  split; [vm_compute; reflexivity|].
  repeat split; vm_compute; reflexivity.
Qed.

(** C8, as the script has it.  In exact arithmetic [lam * tau = 1] for every
    positive half-life.  In binary64 the computed product is [1] for seven
    of the eight catalog half-lives and [0.9999999999999999], the double
    just below [1], for Cesio-137. *)
Theorem C8_lambda_tau :
  (forall t12 : R,
      (0 < t12)%R ->
      exists c : Constantes,
        constantes t12 = Ok c /\
        lam c = (ln 2 / t12)%R /\
        tau c = (1 / lam c)%R /\
        (lam c * tau c)%R = 1%R) /\
  map (fun p : string * Isotopo =>
         (fst p,
          match constantes (t12_s (snd p)) with
          | Ok c => Some (PrimFloat.mul (lam c) (tau c))
          | Raise _ => None
          end))
    (isotopos (T:=float))
  = [("Carbono-14 (C-14)"%string, Some 1%float);
     ("Uranio-238 (U-238)"%string, Some 1%float);
     ("Iodo-131 (I-131)"%string, Some 1%float);
     ("Cobalto-60 (Co-60)"%string, Some 1%float);
     ("Tecnecio-99m (Tc-99m)"%string, Some 1%float);
     ("Cesio-137 (Cs-137)"%string, Some 0.9999999999999999%float);
     ("Radón-222 (Rn-222)"%string, Some 1%float);
     ("Plutonio-239 (Pu-239)"%string, Some 1%float)] /\
  PrimFloat.next_down 1 = 0.9999999999999999%float.
Proof.
  split; [|split].
  - intros t12 Ht. rewrite constantes_R by lra.
    eexists. split; [reflexivity|]. cbn [lam tau].
    repeat split. field. split; [lra|]. pose proof ln_2_pos. lra.
  - vm_compute. reflexivity.
  - vm_compute. reflexivity.
Qed.

Lemma C8_lambda_tau_witness :
  exists c : Constantes,
    constantes 21600%R = Ok c /\
    lam c = (ln 2 / 21600)%R /\
    tau c = (1 / lam c)%R /\
    (lam c * tau c)%R = 1%R.
Proof. apply (proj1 C8_lambda_tau 21600%R). lra. Defined.

(** C9 fails as stated on the script's own arithmetic.  Take the sidebar as
    first shown (Carbono-14, five half-lives, years) and the same with the
    unit set to minutes.  At index 486 the time recovered from minutes,
    [t_u * 60], is not the point of [linspace(0, k * t12, 600)], which the
    run in years does recover; the two differ in the last place, and the
    arguments handed to [np.exp] differ by two units in the last place. *)
Lemma C9_counterexample :
  exists (info : Isotopo) (u1 u2 : float) (c : Constantes) (g1 g2 : Malla),
    getitem isotopos "Carbono-14 (C-14)" = Ok info /\
    getitem unidades "años" = Ok u1 /\
    getitem unidades "minutos" = Ok u2 /\
    constantes (t12_s info) = Ok c /\
    malla (t12_s info) u1 (of_Q 5.0) num_pts = Ok g1 /\
    malla (t12_s info) u2 (of_Q 5.0) num_pts = Ok g2 /\
    nth_error (linspace (of_nat 0) (mul (of_Q 5.0) (t12_s info)) num_pts) 486
      = Some 733564051151.9199%float /\
    nth_error (t_u g2) 486 = Some 12226067519.198664%float /\
    nth_error (t_s g1) 486 = Some 733564051151.9199%float /\
    nth_error (t_s g2) 486 = Some 733564051151.9198%float /\
    PrimFloat.eqb 733564051151.9199 733564051151.9198 = false /\
    PrimFloat.mul (PrimFloat.opp (lam c)) 733564051151.9199
      = (-2.8119326356605465)%float /\
    PrimFloat.mul (PrimFloat.opp (lam c)) 733564051151.9198
      = (-2.8119326356605456)%float /\
    PrimFloat.eqb (-2.8119326356605465) (-2.8119326356605456) = false.
Proof.
  do 6 eexists.
  repeat (split; [vm_compute; reflexivity|]).
  vm_compute; reflexivity.
Qed.

(** *** The half-life point on binary64 arguments *)

Open Scope R_scope.









Lemma float_log_2_R : float_R float_log_2 = IZR log_2_num / IZR (2 ^ 53).
Proof.
  unfold float_R. valor_float. unfold SF2R, log_2_num. potencias. lra.
Qed.

Close Scope R_scope.




(** ** Further properties of the script *)

(** *** The two dictionaries *)

Section Dicts.

Context {V : Type}.

Lemma getitem_missing (d : list (string * V)) (k : string) :
  ~ In k (keys d) -> getitem d k = Raise (KeyError k).
Proof.
  induction d as [|[k' v] d IH]; simpl; [reflexivity|].
  intros Hk. destruct (String.eqb k' k) eqn:E.
  - apply String.eqb_eq in E. tauto.
  - apply IH. tauto.
Qed.

Lemma getitem_NoDup (d : list (string * V)) (k : string) (v : V) :
  NoDup (keys d) -> In (k, v) d -> getitem d k = Ok v.
Proof.
  induction d as [|[k' v'] d IH]; simpl; [contradiction|].
  intros Hnd Hin. inversion Hnd as [|? ? Hk' Hnd']; subst.
  destruct Hin as [[= -> ->]|Hin].
  - now rewrite String.eqb_refl.
  - destruct (String.eqb k' k) eqn:E.
    + apply String.eqb_eq in E. subst k'. exfalso. apply Hk'.
      unfold keys. apply (in_map fst _ _ Hin).
    + now apply IH.
Qed.

Lemma getitem_Ok_In (d : list (string * V)) (k : string) (v : V) :
  getitem d k = Ok v -> In k (keys d) /\ In v (map snd d).
Proof.
  induction d as [|[k' v'] d IH]; simpl; [discriminate|].
  destruct (String.eqb k' k) eqn:E.
  - apply String.eqb_eq in E. intros [= ->]. auto.
  - intros Hg. destruct (IH Hg). auto.
Qed.

End Dicts.

Section Catalogo.

Context {T : Type} `{Arith T}.

Lemma isotopos_keys_NoDup : NoDup (keys isotopos).
Proof.
  replace (keys isotopos) with (nodup string_dec (keys isotopos))
    by (vm_compute; reflexivity).
  apply NoDup_nodup.
Qed.

Lemma unidades_keys_NoDup : NoDup (keys unidades).
Proof.
  replace (keys unidades) with (nodup string_dec (keys unidades))
    by (vm_compute; reflexivity).
  apply NoDup_nodup.
Qed.

(** X3.  In both dictionaries the keys are pairwise distinct, so reading the
    first entry of a key, as [getitem] does, and keeping the last, as a
    Python dict literal does, agree: every entry written in the script is
    the one its key returns.  A name outside the catalog raises [KeyError]
    with that name. *)
Theorem X3_entries_retrievable :
  (forall (k : string) (info : Isotopo),
      In (k, info) isotopos -> getitem isotopos k = Ok info) /\
  (forall (k : string) (u : T),
      In (k, u) unidades -> getitem unidades k = Ok u) /\
  (forall k : string,
      ~ In k (keys isotopos) -> getitem isotopos k = Raise (KeyError k)) /\
  (forall k : string,
      ~ In k (keys unidades) -> getitem unidades k = Raise (KeyError k)).
Proof.
  split; [|split; [|split]].
  - intros k info. apply getitem_NoDup, isotopos_keys_NoDup.
  - intros k u. apply getitem_NoDup, unidades_keys_NoDup.
  - intros k. apply getitem_missing.
  - intros k. apply getitem_missing.
Qed.

End Catalogo.

Lemma X3_entries_retrievable_witness :
  exists info : Isotopo,
    In ("Cesio-137 (Cs-137)"%string, info) (isotopos (T:=float)) /\
    getitem isotopos "Cesio-137 (Cs-137)" = Ok info /\
    getitem (isotopos (T:=float)) "Oro-198" = Raise (KeyError "Oro-198").
Proof.
  assert (Hin : In ("Cesio-137 (Cs-137)"%string,
                    {| t12_s := mul (of_Q 30.17) AÑO;
                       modo := "β⁻, γ";
                       nota_t12 := "30.17 años";
                       aplicacion :=
                         "Calibración de detectores y rastreo ambiental." |})
                   (isotopos (T:=float)))
    by (simpl; tauto).
  eexists. split; [exact Hin|]. split.
  - apply (proj1 (X3_entries_retrievable (T:=float)) _ _ Hin).
  - apply (proj1 (proj2 (proj2 (X3_entries_retrievable (T:=float))))).
    simpl. intros Hk. repeat destruct Hk as [Hk|Hk]; try discriminate Hk.
    exact Hk.
Defined.

(** *** Which exceptions the script can raise *)

Open Scope R_scope.

(** X1.  In exact arithmetic, for every state of the sidebar, whatever [N0]
    and the number of half-lives are: an isotope name outside the catalog
    raises [KeyError] with that name (line 96); otherwise a unit outside the
    unit table raises [KeyError] with that unit (line 128); otherwise the
    script returns its 600 rows.  It never raises [ZeroDivisionError]. *)
Theorem X1_app_exceptions (s : Controles) :
  (~ In (iso_nombre s) (keys (isotopos (T:=R))) ->
   app s = Raise (KeyError (iso_nombre s))) /\
  (In (iso_nombre s) (keys (isotopos (T:=R))) ->
   ~ In (unidad_sel s) (keys (unidades (T:=R))) ->
   app s = Raise (KeyError (unidad_sel s))) /\
  (In (iso_nombre s) (keys (isotopos (T:=R))) ->
   In (unidad_sel s) (keys (unidades (T:=R))) ->
   exists r, app s = Ok r /\ length (df r) = 600%nat) /\
  app s <> Raise ZeroDivisionError.
Proof.
  assert (Hiso : forall info : Isotopo,
             In info (map snd isotopos) -> t12_s info <> 0).
  { intros info Hin. pose proof isotopos_pos as Hall.
    rewrite Forall_forall in Hall. apply Rgt_not_eq, Hall, Hin. }
  assert (Hun : forall u : R, In u (map snd unidades) -> u <> 0).
  { intros u Hin. rewrite unidades_R in Hin. simpl in Hin.
    repeat destruct Hin as [<-|Hin]; lra. }
  assert (H1 : ~ In (iso_nombre s) (keys (isotopos (T:=R))) ->
               app s = Raise (KeyError (iso_nombre s))).
  { intros Hk. unfold app. now rewrite getitem_missing. }
  assert (H2 : In (iso_nombre s) (keys (isotopos (T:=R))) ->
               ~ In (unidad_sel s) (keys (unidades (T:=R))) ->
               app s = Raise (KeyError (unidad_sel s))).
  { intros Hk Hu.
    destruct (getitem_In isotopos _ Hk) as (info & Hinfo & Iinfo).
    unfold app. rewrite Hinfo. unfold bind at 1.
    rewrite constantes_R by now apply Hiso. unfold bind at 1.
    now rewrite getitem_missing. }
  assert (H3 : In (iso_nombre s) (keys (isotopos (T:=R))) ->
               In (unidad_sel s) (keys (unidades (T:=R))) ->
               exists r, app s = Ok r /\ length (df r) = 600%nat).
  { intros Hk Hu.
    destruct (getitem_In isotopos _ Hk) as (info & Hinfo & Iinfo).
    destruct (getitem_In unidades _ Hu) as (u & Hfac & Iu).
    pose proof (calculos_R (t12_s info) (N0 s) u (k_semividas s) num_pts
                  (Hiso _ Iinfo) (Hun _ Iu)) as Hr.
    destruct (calculos_lengths _ _ _ _ _ _ Hr) as (Lu & _ & LN & LA).
    eexists. split; [rewrite (app_calculos s info u Hinfo Hfac); exact Hr|].
    unfold df. rewrite filas_length; unfold num_pts in *; congruence. }
  repeat split; try assumption.
  destruct (in_dec string_dec (iso_nombre s) (keys (isotopos (T:=R))))
    as [Hk|Hk].
  - destruct (in_dec string_dec (unidad_sel s) (keys (unidades (T:=R))))
      as [Hu|Hu].
    + destruct (H3 Hk Hu) as (r & -> & _). discriminate.
    + rewrite (H2 Hk Hu). discriminate.
  - rewrite (H1 Hk). discriminate.
Qed.

Lemma X1_app_exceptions_witness :
  app (T:=R) {| iso_nombre := "Oro-198"; N0 := 0; unidad_sel := "siglos";
                k_semividas := -1; logy := true |}
    = Raise (KeyError "Oro-198") /\
  app (T:=R) {| iso_nombre := "Iodo-131 (I-131)"; N0 := 0;
                unidad_sel := "siglos"; k_semividas := -1; logy := true |}
    = Raise (KeyError "siglos") /\
  exists r,
    app (T:=R) {| iso_nombre := "Iodo-131 (I-131)"; N0 := 0;
                  unidad_sel := "horas"; k_semividas := -1; logy := true |}
      = Ok r /\ length (df r) = 600%nat.
Proof.
  split; [|split].
  - apply X1_app_exceptions. simpl. intros Hk.
    repeat destruct Hk as [Hk|Hk]; try discriminate Hk. exact Hk.
  - apply X1_app_exceptions; simpl; [tauto|]. intros Hk.
    repeat destruct Hk as [Hk|Hk]; try discriminate Hk. exact Hk.
  - apply X1_app_exceptions; simpl; tauto.
Defined.

Close Scope R_scope.

(** X2.  On the script's own binary64 arithmetic, with any function in the
    place of [np.exp]: when the isotope and the unit come from the two tables,
    lines 96-138 raise nothing and yield 600 rows, whatever floats [N0] and
    the number of half-lives are (zero, negative, infinite and NaN
    included). *)
Theorem X2_binary64_no_exception (E : Exponential float) (s : Controles) :
  In (iso_nombre s) (keys (isotopos (T:=float))) ->
  In (unidad_sel s) (keys (unidades (T:=float))) ->
  exists r, app s = Ok r /\ length (df r) = 600%nat.
Proof.
  intros Hk Hu.
  destruct (getitem_In isotopos _ Hk) as (info & Hinfo & Iinfo).
  destruct (getitem_In unidades _ Hu) as (u & Hfac & Iu).
  assert (Hc : exists c, constantes (t12_s info) = Ok c).
  { assert (Hall : Forall (fun i : Isotopo =>
                             exists c, constantes (t12_s i) = Ok c)
                     (map snd (isotopos (T:=float))))
      by (repeat constructor; eexists; vm_compute; reflexivity).
    rewrite Forall_forall in Hall. now apply Hall. }
  assert (Hz : eq0 u = false).
  { assert (Hall : Forall (fun x : float => eq0 x = false)
                     (map snd (unidades (T:=float))))
      by (repeat constructor).
    rewrite Forall_forall in Hall. now apply Hall. }
  destruct Hc as (c & Hc).
  destruct (malla_ok (t12_s info) u (k_semividas s) num_pts Hz)
    as (g & Hg & _).
  assert (Hr : calculos (t12_s info) (N0 s) u (k_semividas s) num_pts
               = Ok (curvas c g (N0 s) (t12_s info))).
  { unfold calculos. now rewrite Hc, Hg. }
  destruct (calculos_lengths _ _ _ _ _ _ Hr) as (Lu & _ & LN & LA).
  eexists. split; [rewrite (app_calculos s info u Hinfo Hfac); exact Hr|].
  unfold df. rewrite filas_length; unfold num_pts in *; congruence.
Qed.

Lemma X2_binary64_no_exception_witness :
  exists r,
    app (T:=float) (H0:={| np_exp := fun _ => 1%float |})
      {| iso_nombre := "Iodo-131 (I-131)"; N0 := PrimFloat.nan;
         unidad_sel := "horas"; k_semividas := PrimFloat.neg_infinity;
         logy := false |} = Ok r /\
    length (df r) = 600%nat.
Proof. apply X2_binary64_no_exception; simpl; tauto. Defined.

(** *** The name of the downloaded file *)

Lemma list_ascii_of_string_app (a b : string) :
  list_ascii_of_string (a ++ b)
  = list_ascii_of_string a ++ list_ascii_of_string b.
Proof. induction a as [|c a IH]; simpl; [reflexivity|now rewrite IH]. Qed.

Lemma list_ascii_of_string_inj (a b : string) :
  list_ascii_of_string a = list_ascii_of_string b -> a = b.
Proof.
  intros E. rewrite <- (string_of_list_ascii_of_string a),
    <- (string_of_list_ascii_of_string b). now rewrite E.
Qed.

Lemma replace_not_In (old new : ascii) (s : string) :
  old <> new -> ~ In old (list_ascii_of_string (replace old new s)).
Proof.
  intros Hne. induction s as [|c s IH]; simpl; [tauto|].
  intros [Hc|Hin]; [|now apply IH].
  destruct (Ascii.eqb c old) eqn:E.
  - now apply Hne.
  - apply Ascii.eqb_neq in E. now apply E.
Qed.

Lemma replace_inj (old new : ascii) (a b : string) :
  ~ In new (list_ascii_of_string a) ->
  ~ In new (list_ascii_of_string b) ->
  replace old new a = replace old new b -> a = b.
Proof.
  revert b. induction a as [|x a IH]; intros [|y b]; simpl;
    try discriminate; [reflexivity|].
  intros Ha Hb [= Hxy Hab]. f_equal; [|apply IH; tauto].
  destruct (Ascii.eqb x old) eqn:Ex; destruct (Ascii.eqb y old) eqn:Ey.
  - apply Ascii.eqb_eq in Ex, Ey. congruence.
  - exfalso. apply Hb. left. now symmetry.
  - exfalso. apply Ha. now left.
  - exact Hxy.
Qed.

Lemma sin_guion_bajo (s : string) :
  forallb (fun c => negb (Ascii.eqb c "_")) (list_ascii_of_string s) = true ->
  ~ In "_"%char (list_ascii_of_string s).
Proof.
  intros Hall Hin. rewrite forallb_forall in Hall.
  specialize (Hall _ Hin). now rewrite Ascii.eqb_refl in Hall.
Qed.

(** X4.  The name offered for the downloaded file holds no space, whatever
    the isotope name.  Two isotope names free of underscores that differ give
    different file names; the eight names of the catalog are such, so no two
    isotopes share a file name. *)
Theorem X4_file_name :
  (forall name : string,
      ~ In " "%char (list_ascii_of_string (file_name name))) /\
  (forall a b : string,
      ~ In "_"%char (list_ascii_of_string a) ->
      ~ In "_"%char (list_ascii_of_string b) ->
      file_name a = file_name b -> a = b) /\
  (forall a b : string,
      In a (keys (isotopos (T:=R))) -> In b (keys (isotopos (T:=R))) ->
      file_name a = file_name b -> a = b).
Proof.
  assert (Hinj : forall a b : string,
             ~ In "_"%char (list_ascii_of_string a) ->
             ~ In "_"%char (list_ascii_of_string b) ->
             file_name a = file_name b -> a = b).
  { intros a b Ha Hb E. unfold file_name in E.
    apply (f_equal list_ascii_of_string) in E.
    rewrite !list_ascii_of_string_app in E.
    apply app_inv_head, app_inv_tail in E.
    apply list_ascii_of_string_inj in E.
    now apply (replace_inj " " "_"). }
  assert (Hkeys : forall a : string,
             In a (keys (isotopos (T:=R))) ->
             ~ In "_"%char (list_ascii_of_string a)).
  { intros a Ha. apply sin_guion_bajo. revert a Ha. apply Forall_forall.
    repeat constructor. }
  split; [|split].
  - intros name. unfold file_name. rewrite !list_ascii_of_string_app.
    intros Hin. apply in_app_or in Hin. destruct Hin as [Hin|Hin].
    + simpl in Hin. repeat destruct Hin as [Hin|Hin]; try discriminate Hin.
      exact Hin.
    + apply in_app_or in Hin. destruct Hin as [Hin|Hin].
      * revert Hin. apply replace_not_In. discriminate.
      * simpl in Hin. repeat destruct Hin as [Hin|Hin]; try discriminate Hin.
        exact Hin.
  - exact Hinj.
  - intros a b Ha Hb. apply Hinj; now apply Hkeys.
Qed.

Lemma X4_file_name_witness :
  file_name "Iodo-131 (I-131)" = "decaimiento_Iodo-131_(I-131).csv"%string /\
  (file_name "Iodo-131 (I-131)" = file_name "Iodo-131 (I-131)" ->
   "Iodo-131 (I-131)"%string = "Iodo-131 (I-131)"%string).
Proof.
  split; [reflexivity|].
  apply (proj2 (proj2 X4_file_name)); simpl; tauto.
Defined.

(** *** The curves between their ends *)

Open Scope R_scope.

Lemma Forall_nth_error {A : Type} (P : A -> Prop) (l : list A) :
  (forall i x, nth_error l i = Some x -> P x) -> Forall P l.
Proof.
  intros Hall. apply Forall_forall. intros x Hin.
  destruct (In_nth_error _ _ Hin) as (i & Hi). now apply (Hall i).
Qed.

Lemma ln_2_lt_1 : ln 2 < 1.
Proof.
  rewrite <- (ln_exp 1). apply ln_increasing; [lra|].
  pose proof (exp_ineq1 1 ltac:(lra)). lra.
Qed.

(** The mean lifetime in exact arithmetic. *)
Lemma mean_lifetime_R (t12 N0 : R) :
  0 < t12 ->
  exists c,
    constantes t12 = Ok c /\
    tau c = t12 / ln 2 /\
    t12 < tau c < 2 * t12 /\
    N_de_t N0 (lam c) (tau c) = N0 / exp 1.
Proof.
  intros Ht. pose proof ln_2_pos as H0. pose proof ln_2_lt_1 as H1.
  pose proof ln_lt_2 as H2.
  rewrite constantes_R by lra. eexists. split; [reflexivity|].
  cbn [lam tau].
  assert (Htau : 1 / (ln 2 / t12) = t12 / ln 2) by (field; lra).
  rewrite Htau. split; [reflexivity|]. split; [split|].
  - apply (Rmult_lt_reg_r (ln 2)); [exact H0|].
    unfold Rdiv. rewrite Rmult_assoc, Rinv_l by lra. nra.
  - apply (Rmult_lt_reg_r (ln 2)); [exact H0|].
    unfold Rdiv. rewrite Rmult_assoc, Rinv_l by lra. nra.
  - unfold N_de_t. simpl.
    replace (- (ln 2 / t12) * (t12 / ln 2)) with (- (1)) by (field; lra).
    rewrite exp_Ropp. reflexivity.
Qed.

(** X7.  The mean lifetime of line 124 lies strictly between one and two
    half-lives: for every positive half-life in exact arithmetic, and as
    computed in binary64 for each of the eight half-lives of the catalog. *)
Theorem X7_mean_lifetime :
  (forall t12 : R,
      0 < t12 ->
      exists c, constantes t12 = Ok c /\ t12 < tau c < 2 * t12) /\
  Forall
    (fun info : Isotopo =>
       exists c : Constantes,
         constantes (t12_s info) = Ok c /\
         PrimFloat.ltb (t12_s info) (tau c) = true /\
         PrimFloat.ltb (tau c) (PrimFloat.mul 2 (t12_s info)) = true)
    (map snd (isotopos (T:=float))).
Proof.
  split.
  - intros t12 Ht.
    destruct (mean_lifetime_R t12 1 Ht) as (c & Hc & _ & Hb & _).
    now exists c.
  - cbn [isotopos map snd].
    repeat (apply Forall_cons;
            [eexists; split; [vm_compute; reflexivity|];
             split; vm_compute; reflexivity|]).
    apply Forall_nil.
Qed.

Lemma X7_mean_lifetime_witness :
  exists c, constantes 21600 = Ok c /\ 21600 < tau c < 2 * 21600.
Proof. apply (proj1 X7_mean_lifetime 21600). lra. Defined.

Lemma punto_strict (Tu : R) (n i : nat) :
  0 < Tu -> (2 <= n)%nat -> punto 0 Tu n i < punto 0 Tu n (S i).
Proof.
  intros HT Hn. unfold punto. rewrite S_INR.
  assert (Hd : 0 < INR (n - 1)) by (apply lt_0_INR; lia).
  assert (0 < (Tu - 0) / INR (n - 1)) by (apply Rdiv_lt_0_compat; lra).
  lra.
Qed.

(** X8.  On valid input the grid times climb strictly and the populations
    and the activities fall strictly from each grid point to the next: no
    two samples are equal. *)
Theorem X8_strictly_monotone (t12 N0 factor k : R) (n : nat) :
  0 < t12 -> 0 < N0 -> 0 < factor -> 0 < k -> (2 <= n)%nat ->
  exists c,
    calculos t12 N0 factor k n = Ok c /\
    (forall (i : nat) (x y : R),
        nth_error (t_u (grid c)) i = Some x ->
        nth_error (t_u (grid c)) (S i) = Some y -> x < y) /\
    (forall (i : nat) (x y : R),
        nth_error (N_t c) i = Some x ->
        nth_error (N_t c) (S i) = Some y -> y < x) /\
    (forall (i : nat) (x y : R),
        nth_error (A_t c) i = Some x ->
        nth_error (A_t c) (S i) = Some y -> y < x).
Proof.
  intros Ht HN Hf Hk Hn.
  destruct (muestra t12 N0 factor k n Ht Hf Hn 0 ltac:(lia)) as (c & Hc & _).
  destruct (calculos_lengths _ _ _ _ _ _ Hc) as (Lu & _ & LN & LA).
  pose proof (lam_R_pos t12 Ht) as Hl.
  assert (HTu : 0 < k * t12 / factor).
  { apply Rdiv_lt_0_compat; [|exact Hf]. now apply Rmult_lt_0_compat. }
  assert (Hstep : forall i,
             N0 * exp (- (ln 2 / t12
                          * (punto 0 (k * t12 / factor) n (S i) * factor)))
             < N0 * exp (- (ln 2 / t12
                            * (punto 0 (k * t12 / factor) n i * factor)))).
  { intros i. apply Rmult_lt_compat_l; [exact HN|]. apply exp_increasing.
    apply Ropp_lt_contravar. apply Rmult_lt_compat_l; [exact Hl|].
    apply Rmult_lt_compat_r; [exact Hf|]. now apply punto_strict. }
  exists c. split; [exact Hc|].
  split; [|split]; intros i x y Hx Hy.
  - assert (Hi : (S i < n)%nat)
      by (rewrite <- Lu; apply nth_error_Some; rewrite Hy; discriminate).
    destruct (muestras t12 N0 factor k n Ht Hf Hn c i Hc ltac:(lia))
      as (Hxi & _).
    destruct (muestras t12 N0 factor k n Ht Hf Hn c (S i) Hc Hi)
      as (Hyi & _).
    rewrite Hxi in Hx. rewrite Hyi in Hy.
    injection Hx as <-. injection Hy as <-. now apply punto_strict.
  - assert (Hi : (S i < n)%nat)
      by (rewrite <- LN; apply nth_error_Some; rewrite Hy; discriminate).
    destruct (muestras t12 N0 factor k n Ht Hf Hn c i Hc ltac:(lia))
      as (_ & _ & Hxi & _).
    destruct (muestras t12 N0 factor k n Ht Hf Hn c (S i) Hc Hi)
      as (_ & _ & Hyi & _).
    rewrite Hxi in Hx. rewrite Hyi in Hy.
    injection Hx as <-. injection Hy as <-. apply Hstep.
  - assert (Hi : (S i < n)%nat)
      by (rewrite <- LA; apply nth_error_Some; rewrite Hy; discriminate).
    destruct (muestras t12 N0 factor k n Ht Hf Hn c i Hc ltac:(lia))
      as (_ & _ & _ & Hxi).
    destruct (muestras t12 N0 factor k n Ht Hf Hn c (S i) Hc Hi)
      as (_ & _ & _ & Hyi).
    rewrite Hxi in Hx. rewrite Hyi in Hy.
    injection Hx as <-. injection Hy as <-.
    apply Rmult_lt_compat_l; [exact Hl|]. apply Hstep.
Qed.

Lemma X8_strictly_monotone_witness :
  exists c,
    calculos 21600 1000000 3600 5 600 = Ok c /\
    (forall (i : nat) (x y : R),
        nth_error (t_u (grid c)) i = Some x ->
        nth_error (t_u (grid c)) (S i) = Some y -> x < y) /\
    (forall (i : nat) (x y : R),
        nth_error (N_t c) i = Some x ->
        nth_error (N_t c) (S i) = Some y -> y < x) /\
    (forall (i : nat) (x y : R),
        nth_error (A_t c) i = Some x ->
        nth_error (A_t c) (S i) = Some y -> y < x).
Proof.
  apply (X8_strictly_monotone 21600 1000000 3600 5 600); try lra; lia.
Defined.

(** *** The last point *)

Close Scope R_scope.

Section LastPoint.

Context {T : Type} `{Arith T}.

(** X9.  In every arithmetic, binary64 included: unless the unit factor is
    zero the grid is built, it has [n] points, and with two points or more
    its last time is [Tmax_u] itself, not a rounded multiple of the step;
    the last time in seconds is [Tmax_u * factor]. *)
Theorem X9_last_point_exact (t12 factor k : T) (n : nat) :
  eq0 factor = false -> (2 <= n)%nat ->
  exists g,
    malla t12 factor k n = Ok g /\
    length (t_u g) = n /\
    length (t_s g) = n /\
    Tmax_u g = div (mul k t12) factor /\
    nth_error (t_u g) (n - 1) = Some (Tmax_u g) /\
    nth_error (t_s g) (n - 1) = Some (mul (Tmax_u g) factor).
Proof.
  intros Hf Hn. unfold malla, pydiv. rewrite Hf. unfold bind.
  eexists. split; [reflexivity|]. cbn [t_u t_s Tmax_u].
  rewrite length_map, linspace_length.
  repeat split.
  - now apply linspace_last.
  - rewrite nth_error_map, linspace_last by exact Hn. reflexivity.
Qed.

End LastPoint.

Lemma X9_last_point_exact_witness :
  exists g : Malla,
    malla 21600%float 60%float 5%float 600 = Ok g /\
    length (t_u g) = 600%nat /\
    length (t_s g) = 600%nat /\
    Tmax_u g = PrimFloat.div (PrimFloat.mul 5 21600) 60 /\
    nth_error (t_u g) (600 - 1) = Some (Tmax_u g) /\
    nth_error (t_s g) (600 - 1) = Some (PrimFloat.mul (Tmax_u g) 60).
Proof.
  exact (X9_last_point_exact (T:=float) 21600%float 60%float 5%float 600
           eq_refl ltac:(lia)).
Defined.

(** *** Where the half-life falls on the grid *)

Open Scope R_scope.

(** The slider of line 116 delivers the twenty halves from [0.5] to [10]. *)
Lemma slider_R_values (k : R) :
  slider k_semividas_widget k <->
  exists j : nat, (j <= 19)%nat /\ k = INR (S j) / 2.
Proof.
  split.
  - intros (j & Hk & Hmax). apply leb_R in Hmax. exists j.
    assert (Ek : k = INR (S j) / 2) by (rewrite S_INR, Hk; literal).
    split; [|exact Ek].
    apply INR_le. rewrite Ek, S_INR in Hmax.
    rewrite (INR_IZR_INZ 19). simpl Z.of_nat. revert Hmax. literal.
  - intros (j & Hj & ->). exists j. rewrite S_INR. split; [literal|].
    apply leb_R. apply le_INR in Hj.
    rewrite (INR_IZR_INZ 19) in Hj. simpl Z.of_nat in Hj.
    revert Hj. literal.
Qed.

(** Where a grid time is the half-life, in exact arithmetic. *)
Lemma half_life_on_grid_R (t12 N0 factor k : R) :
  0 < t12 -> 0 < factor -> slider k_semividas_widget k ->
  exists c,
    calculos t12 N0 factor k num_pts = Ok c /\
    forall i : nat,
      nth_error (t_s (grid c)) i = Some t12 <-> (k = 1 /\ i = 599%nat).
Proof.
  intros Ht Hf Hk. apply slider_R_values in Hk. destruct Hk as (j & Hj & Ek).
  assert (Hn : (2 <= num_pts)%nat) by (unfold num_pts; lia).
  destruct (muestra t12 N0 factor k num_pts Ht Hf Hn 0
              ltac:(unfold num_pts; lia)) as (c & Hc & _).
  destruct (calculos_lengths _ _ _ _ _ _ Hc) as (_ & Ls & _).
  exists c. split; [exact Hc|]. intros i.
  assert (H599 : INR (num_pts - 1) = 599).
  { rewrite INR_IZR_INZ. reflexivity. }
  assert (Hp : forall i, punto 0 (k * t12 / factor) num_pts i * factor
                         = INR i * k * t12 / 599).
  { intros i0. unfold punto. rewrite H599. field. lra. }
  split.
  - intros Hi.
    assert (Hlt : (i < num_pts)%nat)
      by (rewrite <- Ls; apply nth_error_Some; rewrite Hi; discriminate).
    destruct (muestras t12 N0 factor k num_pts Ht Hf Hn c i Hc Hlt)
      as (_ & Hs & _).
    rewrite Hs, Hp in Hi. injection Hi as Hi.
    assert (Eik : INR i * k = 599).
    { apply (Rmult_eq_reg_r (t12 / 599)); [|apply Rgt_not_eq;
        apply Rdiv_lt_0_compat; lra].
      lra. }
    assert (Enat : (i * S j = 1198)%nat).
    { apply INR_eq. rewrite mult_INR, (INR_IZR_INZ 1198). simpl Z.of_nat.
      rewrite Ek in Eik. lra. }
    assert (Hsol : (j = 1 /\ i = 599)%nat).
    { unfold num_pts in Hlt. clear - Enat Hj Hlt.
      do 20 (destruct j as [|j]; [lia|]). lia. }
    destruct Hsol as [-> ->]. split; [|reflexivity].
    rewrite Ek, (INR_IZR_INZ 2). simpl Z.of_nat. lra.
  - intros [-> ->].
    destruct (muestras t12 N0 factor 1 num_pts Ht Hf Hn c 599%nat Hc
                ltac:(unfold num_pts; lia)) as (_ & Hs & _).
    rewrite Hs, Hp. f_equal. rewrite (INR_IZR_INZ 599). simpl Z.of_nat.
    field.
Qed.

Close Scope R_scope.

(** *** The binary64 grid on every setting of the widgets *)

Lemma creciente_nth (l : list float) (i : nat) (x y : float) :
  creciente l = true ->
  nth_error l i = Some x -> nth_error l (S i) = Some y ->
  PrimFloat.ltb x y = true.
Proof.
  revert i. induction l as [|a l IH]; intros i Hc Hx Hy.
  - destruct i; discriminate.
  - destruct l as [|b l]; [destruct i; discriminate|].
    change (PrimFloat.ltb a b && creciente (b :: l) = true) in Hc.
    apply andb_true_iff in Hc. destruct Hc as [Hab Hc].
    destruct i as [|i].
    + simpl in Hx, Hy. injection Hx as <-. injection Hy as <-. exact Hab.
    + apply (IH i Hc); assumption.
Qed.

Lemma mallas_sanas :
  forallb
    (fun info : Isotopo =>
       forallb
         (fun u : float =>
            forallb
              (fun j : nat =>
                 malla_sana (t12_s info) u
                   (add (sl_min_value k_semividas_widget)
                      (mul (of_nat j) (sl_step k_semividas_widget))))
              (seq 0 20))
         (map snd (unidades (T:=float))))
    (map snd (isotopos (T:=float)))
  = true.
Proof. vm_compute. reflexivity. Qed.




(** X11.  On the script's binary64 arithmetic, for each of the eight
    isotopes, each of the five units and each of the twenty positions of the
    slider: the constants and the grid are computed; the first time is [0];
    the times climb strictly from point to point, in units and in seconds, so
    rounding never merges two grid points; and every argument
    [-lam * t_s] handed to [np.exp] lies in [[-7, 0]], where the exponential
    neither overflows nor underflows. *)
Theorem X11_binary64_grid
  (iso unidad : string) (info : Isotopo) (u : float) (j : nat) :
  getitem isotopos iso = Ok info ->
  getitem unidades unidad = Ok u ->
  (j < 20)%nat ->
  exists (c : Constantes) (g : Malla),
    constantes (t12_s info) = Ok c /\
    malla (t12_s info) u
      (add (sl_min_value k_semividas_widget)
         (mul (of_nat j) (sl_step k_semividas_widget))) num_pts = Ok g /\
    (exists t0 : float,
        nth_error (t_u g) 0 = Some t0 /\ PrimFloat.eqb t0 0 = true) /\
    (forall (i : nat) (x y : float),
        nth_error (t_u g) i = Some x -> nth_error (t_u g) (S i) = Some y ->
        PrimFloat.ltb x y = true) /\
    (forall (i : nat) (x y : float),
        nth_error (t_s g) i = Some x -> nth_error (t_s g) (S i) = Some y ->
        PrimFloat.ltb x y = true) /\
    (forall t : float,
        In t (t_s g) ->
        PrimFloat.leb (-7) (PrimFloat.mul (PrimFloat.opp (lam c)) t) = true /\
        PrimFloat.leb (PrimFloat.mul (PrimFloat.opp (lam c)) t) 0 = true).
Proof.
  intros Hinfo Hu Hj.
  apply getitem_Ok_In in Hinfo. destruct Hinfo as [_ Hinfo].
  apply getitem_Ok_In in Hu. destruct Hu as [_ Hu].
  pose proof mallas_sanas as Hall.
  rewrite forallb_forall in Hall. specialize (Hall _ Hinfo).
  rewrite forallb_forall in Hall. specialize (Hall _ Hu).
  rewrite forallb_forall in Hall.
  specialize (Hall j ltac:(apply in_seq; lia)).
  unfold malla_sana in Hall.
  destruct (constantes (t12_s info)) as [c|]; [|discriminate].
  destruct (malla _ _ _ _) as [g|]; [|discriminate].
  apply andb_true_iff in Hall. destruct Hall as [Hall Hexp].
  apply andb_true_iff in Hall. destruct Hall as [Hall Hs].
  apply andb_true_iff in Hall. destruct Hall as [H0 Hup].
  exists c, g. split; [reflexivity|]. split; [reflexivity|].
  split.
  { destruct (t_u g) as [|t0 l]; [discriminate|]. exists t0. now split. }
  split; [intros i x y; now apply creciente_nth|].
  split; [intros i x y; now apply creciente_nth|].
  intros t Ht. rewrite forallb_forall in Hexp. specialize (Hexp t Ht).
  now apply andb_true_iff in Hexp.
Qed.

Lemma X11_binary64_grid_witness :
  exists (info : Isotopo) (u : float),
    getitem isotopos "Cesio-137 (Cs-137)" = Ok info /\
    getitem unidades "días" = Ok u /\
    exists (c : Constantes) (g : Malla),
      constantes (t12_s info) = Ok c /\
      malla (t12_s info) u
        (add (sl_min_value k_semividas_widget)
           (mul (of_nat 19) (sl_step k_semividas_widget))) num_pts = Ok g /\
      (exists t0 : float,
          nth_error (t_u g) 0 = Some t0 /\ PrimFloat.eqb t0 0 = true) /\
      (forall (i : nat) (x y : float),
          nth_error (t_u g) i = Some x -> nth_error (t_u g) (S i) = Some y ->
          PrimFloat.ltb x y = true) /\
      (forall (i : nat) (x y : float),
          nth_error (t_s g) i = Some x -> nth_error (t_s g) (S i) = Some y ->
          PrimFloat.ltb x y = true) /\
      (forall t : float,
          In t (t_s g) ->
          PrimFloat.leb (-7) (PrimFloat.mul (PrimFloat.opp (lam c)) t) = true /\
          PrimFloat.leb (PrimFloat.mul (PrimFloat.opp (lam c)) t) 0 = true).
Proof.
  do 2 eexists.
  split; [vm_compute; reflexivity|]. split; [vm_compute; reflexivity|].
  apply (X11_binary64_grid "Cesio-137 (Cs-137)" "días" _ _ 19).
  - vm_compute; reflexivity.
  - vm_compute; reflexivity.
  - lia.
Defined.

(** *** Exceptions of lines 122-138 in every arithmetic *)

Section Exceptions.

Context {T : Type} `{Arith T} `{Exponential T}.

(** X14.  In every arithmetic, binary64 included, lines 122-138 raise
    exactly when one of the three divisors is zero: the half-life (line 123),
    the decay constant (line 124) or the unit factor (line 129); the
    exception is [ZeroDivisionError].  Otherwise [n] rows come out.  On
    binary64 the decay constant is zero for an infinite half-life, which
    therefore raises on line 124. *)
Theorem X14_calculos_exceptions (t12 N0 factor k : T) (n : nat) :
  (eq0 t12 || eq0 (div log_2 t12) || eq0 factor = true ->
   calculos t12 N0 factor k n = Raise ZeroDivisionError) /\
  (eq0 t12 || eq0 (div log_2 t12) || eq0 factor = false ->
   exists c, calculos t12 N0 factor k n = Ok c /\ length (df c) = n).
Proof.
  unfold calculos, constantes, pydiv. split.
  - intros Hz. destruct (eq0 t12); cbn [bind]; [reflexivity|].
    destruct (eq0 (div log_2 t12)); cbn [bind]; [reflexivity|].
    simpl in Hz. now rewrite malla_raise.
  - intros Hz. apply orb_false_iff in Hz. destruct Hz as [Hz Hf].
    apply orb_false_iff in Hz. destruct Hz as [Ht Hl].
    rewrite Ht. cbn [bind]. rewrite Hl. cbn [bind].
    destruct (malla_ok t12 factor k n Hf) as (g & Hg & Lu & Ls).
    rewrite Hg. cbn [bind]. eexists. split; [reflexivity|].
    unfold df, curvas. cbn [grid N_t A_t].
    rewrite filas_length; rewrite ?length_map; congruence.
Qed.

End Exceptions.

Lemma X14_calculos_exceptions_witness :
  calculos (T:=float) (H0:={| np_exp := fun _ => 1%float |})
    PrimFloat.infinity 1000000%float 3600%float 5%float 600
  = Raise ZeroDivisionError /\
  exists c,
    calculos (T:=float) (H0:={| np_exp := fun _ => 1%float |})
      PrimFloat.nan 1000000%float 3600%float 5%float 600 = Ok c /\
    length (df c) = 600%nat.
Proof.
  split.
  - apply X14_calculos_exceptions. reflexivity.
  - apply X14_calculos_exceptions. reflexivity.
Defined.

(** *** The ten rows shown on the page *)

Open Scope R_scope.

Lemma filas_nth_inv (t n a : list R) (i : nat) (x y z : R) :
  nth_error (filas t n a) i = Some (x, y, z) ->
  nth_error t i = Some x /\ nth_error n i = Some y /\ nth_error a i = Some z.
Proof.
  revert t n a.
  induction i as [|i IH]; intros [|x' t] [|y' n] [|z' a]; simpl;
    try discriminate.
  - now intros [= -> -> ->].
  - apply IH.
Qed.

(** X13.  For every number of half-lives the slider can deliver, the ten
    rows shown on the page (line 172) all lie before the first half-life:
    there are ten of them, each time in seconds is below [t12], and each
    population is above [N0 / 2]. *)
Theorem X13_preview_before_half_life (t12 N0 factor k : R) :
  0 < t12 -> 0 < N0 -> 0 < factor -> slider k_semividas_widget k ->
  exists c,
    calculos t12 N0 factor k num_pts = Ok c /\
    length (head 10 (df c)) = 10%nat /\
    Forall (fun row => fst (fst row) * factor < t12 /\
                       N0 / 2 < snd (fst row) <= N0)
      (head 10 (df c)).
Proof.
  intros Ht HN Hf Hk. pose proof (slider_R k Hk) as [Hk0 Hk1].
  assert (Hk' : 0 < k) by lra.
  assert (Hn : (2 <= num_pts)%nat) by (unfold num_pts; lia).
  destruct (muestra t12 N0 factor k num_pts Ht Hf Hn 0
              ltac:(unfold num_pts; lia)) as (c & Hc & _).
  destruct (calculos_lengths _ _ _ _ _ _ Hc) as (Lu & _ & LN & LA).
  pose proof (lam_R_pos t12 Ht) as Hl.
  exists c. split; [exact Hc|]. unfold head. split.
  { apply firstn_length_le. unfold df.
    rewrite filas_length by congruence. rewrite Lu. unfold num_pts. lia. }
  apply Forall_nth_error. intros i [[t x] a] Hi.
  rewrite nth_error_firstn in Hi.
  destruct (Nat.ltb i 10) eqn:Hi10; [|discriminate].
  apply Nat.ltb_lt in Hi10. unfold df in Hi.
  apply filas_nth_inv in Hi. destruct Hi as (Hti & Hxi & _).
  destruct (muestras t12 N0 factor k num_pts Ht Hf Hn c i Hc
              ltac:(unfold num_pts; lia)) as (Hu & _ & HNi & _).
  rewrite Hu in Hti. rewrite HNi in Hxi.
  injection Hti as <-. injection Hxi as <-. cbn [fst snd].
  assert (H599 : INR (num_pts - 1) = 599)
    by (rewrite INR_IZR_INZ; reflexivity).
  assert (Hp : punto 0 (k * t12 / factor) num_pts i * factor
               = INR i * k * t12 / 599)
    by (unfold punto; rewrite H599; field; lra).
  assert (Hi9 : 0 <= INR i <= 9).
  { split; [apply pos_INR|].
    replace 9 with (INR 9) by (rewrite INR_IZR_INZ; reflexivity).
    apply le_INR. lia. }
  assert (Hlt : punto 0 (k * t12 / factor) num_pts i * factor < t12).
  { rewrite Hp. apply (Rmult_lt_reg_r (599 / t12));
      [apply Rdiv_lt_0_compat; lra|].
    replace (INR i * k * t12 / 599 * (599 / t12)) with (INR i * k)
      by (field; lra).
    replace (t12 * (599 / t12)) with 599 by (field; lra). nra. }
  assert (H0 : 0 <= punto 0 (k * t12 / factor) num_pts i * factor).
  { rewrite Hp. apply Rmult_le_pos; [|lra].
    apply Rmult_le_pos; [|lra]. apply Rmult_le_pos; lra. }
  set (ts := punto 0 (k * t12 / factor) num_pts i * factor) in *.
  split; [exact Hlt|]. split.
  - replace (N0 / 2) with (N0 * exp (- (ln 2 / t12 * t12))).
    + apply Rmult_lt_compat_l; [exact HN|]. apply exp_increasing.
      apply Ropp_lt_contravar. now apply Rmult_lt_compat_l.
    + replace (- (ln 2 / t12 * t12)) with (- (ln 2 / t12) * t12) by ring.
      rewrite exp_half_life by lra. field.
  - apply Rle_trans with (N0 * 1); [|lra].
    apply Rmult_le_compat_l; [lra|].
    rewrite <- exp_0. rewrite <- Ropp_0. apply exp_decreasing_le.
    apply Rmult_le_pos; lra.
Qed.

Lemma X13_preview_before_half_life_witness :
  exists c,
    calculos 21600 1000000 3600 10 num_pts = Ok c /\
    length (head 10 (df c)) = 10%nat /\
    Forall (fun row => fst (fst row) * 3600 < 21600 /\
                       1000000 / 2 < snd (fst row) <= 1000000)
      (head 10 (df c)).
Proof.
  apply (X13_preview_before_half_life 21600 1000000 3600 10); try lra.
  exists 19%nat. split; [|apply leb_R]; literal.
Defined.

Close Scope R_scope.

(** *** Back to seconds, and the half-life row, on binary64 *)

Lemma vueltas_sanas :
  forallb
    (fun info : Isotopo =>
       forallb
         (fun u : float =>
            forallb
              (fun j : nat =>
                 vuelta_sana (t12_s info) u
                   (add (sl_min_value k_semividas_widget)
                      (mul (of_nat j) (sl_step k_semividas_widget)))
                 && semivida_solo_al_final (t12_s info) u j)
              (seq 0 20))
         (map snd (unidades (T:=float))))
    (map snd (isotopos (T:=float)))
  = true.
Proof. vm_compute. reflexivity. Qed.

Lemma ajustes_binary64
  (P : float -> float -> nat -> bool)
  (iso unidad : string) (info : Isotopo) (u : float) (j : nat) :
  forallb
    (fun info : Isotopo =>
       forallb
         (fun u : float => forallb (fun j : nat => P (t12_s info) u j)
                             (seq 0 20))
         (map snd (unidades (T:=float))))
    (map snd (isotopos (T:=float))) = true ->
  getitem isotopos iso = Ok info ->
  getitem unidades unidad = Ok u ->
  (j < 20)%nat ->
  P (t12_s info) u j = true.
Proof.
  intros Hall Hinfo Hu Hj.
  apply getitem_Ok_In in Hinfo. destruct Hinfo as [_ Hinfo].
  apply getitem_Ok_In in Hu. destruct Hu as [_ Hu].
  rewrite forallb_forall in Hall. specialize (Hall _ Hinfo).
  rewrite forallb_forall in Hall. specialize (Hall _ Hu).
  rewrite forallb_forall in Hall. apply Hall. apply in_seq. lia.
Qed.

Lemma indices_de_nth (x : float) (l : list float) (i0 i : nat) (t : float) :
  nth_error l i = Some t -> PrimFloat.eqb t x = true ->
  In (i0 + i)%nat (indices_de x l i0).
Proof.
  revert i0 i. induction l as [|a l IH]; intros i0 i Hi Ht.
  - destruct i; discriminate.
  - destruct i as [|i]; simpl in Hi.
    + injection Hi as ->. simpl. rewrite Ht, Nat.add_0_r. now left.
    + simpl. replace (i0 + S i)%nat with (S i0 + i)%nat by lia.
      destruct (PrimFloat.eqb a x); [right|]; now apply IH.
Qed.

(** X5.  On the script's binary64 arithmetic, at each of the 8 x 5 x 20
    settings of the widgets, taking the end of the window to the chosen unit
    and back to seconds returns [k * t12] up to one unit in the last place:
    the last time in seconds, [Tmax_u * factor], is [Tmax_s = k * t12] or one
    of the two doubles next to it. *)
Theorem X5_round_trip
  (iso unidad : string) (info : Isotopo) (u : float) (j : nat) :
  getitem isotopos iso = Ok info ->
  getitem unidades unidad = Ok u ->
  (j < 20)%nat ->
  exists (g : Malla) (tn : float),
    malla (t12_s info) u
      (add (sl_min_value k_semividas_widget)
         (mul (of_nat j) (sl_step k_semividas_widget))) num_pts = Ok g /\
    Tmax_s g
    = mul (add (sl_min_value k_semividas_widget)
             (mul (of_nat j) (sl_step k_semividas_widget))) (t12_s info) /\
    nth_error (t_s g) 599 = Some tn /\
    tn = mul (Tmax_u g) u /\
    PrimFloat.eqb tn (Tmax_s g)
    || PrimFloat.eqb tn (PrimFloat.next_up (Tmax_s g))
    || PrimFloat.eqb tn (PrimFloat.next_down (Tmax_s g)) = true.
Proof.
  intros Hinfo Hu Hj.
  pose proof (ajustes_binary64
                (fun t12 u j =>
                   vuelta_sana t12 u
                     (add (sl_min_value k_semividas_widget)
                        (mul (of_nat j) (sl_step k_semividas_widget)))
                   && semivida_solo_al_final t12 u j)
                iso unidad info u j vueltas_sanas Hinfo Hu Hj) as Hall.
  cbv beta in Hall. apply andb_true_iff in Hall. destruct Hall as [Hv _].
  unfold vuelta_sana in Hv.
  assert (Hz : eq0 u = false).
  { apply getitem_Ok_In in Hu. destruct Hu as [_ Hu].
    assert (Hun : Forall (fun x : float => eq0 x = false)
                    (map snd (unidades (T:=float))))
      by (repeat constructor).
    rewrite Forall_forall in Hun. now apply Hun. }
  unfold malla, pydiv in Hv |- *. rewrite Hz in Hv |- *.
  cbn [bind t_s t_u Tmax_s Tmax_u] in Hv |- *.
  change (num_pts - 1)%nat with 599%nat in Hv.
  match type of Hv with
  | match ?o with _ => _ end = true =>
      assert (Hlast : o = Some (mul (div (mul (add (sl_min_value
                                                      k_semividas_widget)
                                                   (mul (of_nat j)
                                                      (sl_step
                                                         k_semividas_widget)))
                                              (t12_s info)) u) u))
  end.
  { rewrite nth_error_map.
    change 599%nat with (num_pts - 1)%nat.
    rewrite linspace_last by (unfold num_pts; lia). reflexivity. }
  rewrite Hlast in Hv.
  eexists _, _. split; [reflexivity|]. cbn [t_s t_u Tmax_s Tmax_u].
  split; [reflexivity|]. split; [exact Hlast|]. split; [reflexivity|].
  exact Hv.
Qed.

Lemma X5_round_trip_witness :
  exists (g : Malla) (tn : float),
    malla 952092792%float 3600%float
      (add (sl_min_value k_semividas_widget)
         (mul (of_nat 1) (sl_step k_semividas_widget))) num_pts = Ok g /\
    Tmax_s g
    = mul (add (sl_min_value k_semividas_widget)
             (mul (of_nat 1) (sl_step k_semividas_widget))) 952092792%float /\
    nth_error (t_s g) 599 = Some tn /\
    tn = mul (Tmax_u g) 3600%float /\
    PrimFloat.eqb tn (Tmax_s g)
    || PrimFloat.eqb tn (PrimFloat.next_up (Tmax_s g))
    || PrimFloat.eqb tn (PrimFloat.next_down (Tmax_s g)) = true.
Proof.
  apply (X5_round_trip "Cesio-137 (Cs-137)"%string "horas"%string
           {| t12_s := 952092792%float;
              modo := "β⁻, γ"%string;
              nota_t12 := "30.17 años"%string;
              aplicacion :=
                "Calibración de detectores y rastreo ambiental."%string |}
           3600%float 1%nat).
  - vm_compute. reflexivity.
  - vm_compute. reflexivity.
  - lia.
Defined.

(** X12.  A grid time in seconds equals the half-life only if the window is
    one half-life long, and then only at the last point, index 599: in exact
    arithmetic for every positive half-life and unit factor and every value
    of the slider, and in binary64 at each of the 8 x 5 x 20 settings of the
    widgets.  With any other slider value no row of the table is the
    half-life row. *)
Theorem X12_half_life_on_grid :
  (forall (t12 N0 factor k : R),
      (0 < t12)%R -> (0 < factor)%R -> slider k_semividas_widget k ->
      exists c,
        calculos t12 N0 factor k num_pts = Ok c /\
        forall i : nat,
          nth_error (t_s (grid c)) i = Some t12 ->
          k = 1%R /\ i = 599%nat) /\
  (forall (iso unidad : string) (info : Isotopo) (u : float) (j : nat),
      getitem isotopos iso = Ok info ->
      getitem unidades unidad = Ok u ->
      (j < 20)%nat ->
      exists g : Malla,
        malla (t12_s info) u
          (add (sl_min_value k_semividas_widget)
             (mul (of_nat j) (sl_step k_semividas_widget))) num_pts = Ok g /\
        forall (i : nat) (t : float),
          nth_error (t_s g) i = Some t ->
          PrimFloat.eqb t (t12_s info) = true ->
          j = 1%nat /\ i = 599%nat).
Proof.
  split.
  - intros t12 N0 factor k Ht Hf Hk.
    destruct (half_life_on_grid_R t12 N0 factor k Ht Hf Hk) as (c & Hc & Hi).
    exists c. split; [exact Hc|]. intros i. apply Hi.
  - intros iso unidad info u j Hinfo Hu Hj.
    pose proof (ajustes_binary64
                  (fun t12 u j =>
                     vuelta_sana t12 u
                       (add (sl_min_value k_semividas_widget)
                          (mul (of_nat j) (sl_step k_semividas_widget)))
                     && semivida_solo_al_final t12 u j)
                  iso unidad info u j vueltas_sanas Hinfo Hu Hj) as Hall.
    cbv beta in Hall. apply andb_true_iff in Hall. destruct Hall as [_ Hs].
    unfold semivida_solo_al_final in Hs.
    destruct (malla (t12_s info) u _ num_pts) as [g|]; [|discriminate].
    exists g. split; [reflexivity|]. intros i t Hi Ht.
    pose proof (indices_de_nth (t12_s info) (t_s g) 0 i t Hi Ht) as Hin.
    simpl Nat.add in Hin.
    destruct (indices_de (t12_s info) (t_s g) 0) as [|i0 [|i1 l]];
      [contradiction| |discriminate].
    apply andb_true_iff in Hs. destruct Hs as [Hi0 Hj1].
    apply Nat.eqb_eq in Hi0, Hj1. destruct Hin as [<-|[]]. now split.
Qed.

Lemma X12_half_life_on_grid_witness :
  exists c,
    calculos 21600%R 1000000%R 3600%R 1%R num_pts = Ok c /\
    forall i : nat,
      nth_error (t_s (grid c)) i = Some 21600%R ->
      1%R = 1%R /\ i = 599%nat.
Proof.
  apply (proj1 X12_half_life_on_grid 21600 1000000 3600 1)%R; try lra.
  exists 1%nat. split; [|apply leb_R]; literal.
Defined.
